(** * The Overview API client ([index.js]): a shallow embedding

    [index.js] defines one constructor, [API], whose prototype carries four
    fluent selectors ([docSet], [doc], [store], [object]), eight actions
    ([getIds], [getDocuments], [get], [getState], [setState], [getObjects],
    [createObject], [updateStoreObject]) and the private [_request], which
    builds the request descriptor and hands it to the requester.

    The embedding has two layers:
    - [JS]: the part of the JavaScript run time the client relies on
      (values, [ToBoolean], [ToString], [Array.prototype.join], and the
      base64 encoding of Node's [Buffer]);
    - the client itself, written in a state-and-exception monad over a
      [world] holding the receiver object, the global scope and the trace of
      requester invocations. *)

From Stdlib Require Import ZArith NArith Ascii.
From stdpp Require Import base tactics option list strings pretty gmap.

(** ** The JavaScript run time *)

Module JS.

(** Data values. Numbers are the integer-valued ones (document-set and
    object ids), carried as [Z], plus [NaN]; strings are byte strings
    (the UTF-8 form that [Buffer] sees). Function values are kept apart,
    in [callable] below, so that a data value never hides code. *)
#[warnings="-register-all"] Inductive value : Type :=
| VUndefined
| VNull
| VBool (b : bool)
| VNum (n : Z)
| VNaN
| VStr (s : string)
| VArr (elts : list value)
| VObj (props : list (string * value)).

(** [ToBoolean]: the falsy values are undefined, null, false, 0, NaN and
    the empty string; everything else, all objects included, is truthy. *)
Definition ToBoolean (v : value) : bool :=
  match v with
  | VUndefined | VNull | VNaN => false
  | VBool b => b
  | VNum n => negb (n =? 0)%Z
  | VStr s => negb (String.eqb s EmptyString)
  | VArr _ | VObj _ => true
  end.

(** [a || b] on data values. *)
Definition or (a b : value) : value := if ToBoolean a then a else b.

(** Joining already-converted pieces with a separator. *)
Fixpoint join_strings (sep : string) (l : list string) : string :=
  match l with
  | [] => EmptyString
  | [s] => s
  | s :: rest => s +:+ sep +:+ join_strings sep rest
  end.

(** [ToString], as string concatenation applies it. An array converts
    through [join(",")], in which undefined and null elements print as
    the empty string; a plain object prints as [[object Object]]. *)
Fixpoint ToString (v : value) : string :=
  match v with
  | VUndefined => "undefined"
  | VNull => "null"
  | VBool true => "true"
  | VBool false => "false"
  | VNum n => pretty n
  | VNaN => "NaN"
  | VStr s => s
  | VArr elts =>
      join_strings ","
        (map (fun e => match e with
                       | VUndefined | VNull => EmptyString
                       | _ => ToString e
                       end) elts)
  | VObj _ => "[object Object]"
  end.

(** [Array.prototype.join(sep)] on the elements of an array. *)
Definition join (sep : string) (elts : list value) : string :=
  join_strings sep
    (map (fun e => match e with
                   | VUndefined | VNull => EmptyString
                   | _ => ToString e
                   end) elts).

(** *** [Buffer.prototype.toString('base64')] *)

Definition base64_alphabet : string :=
  "ABCDEFGHIJKLMNOPQRSTUVWXYZabcdefghijklmnopqrstuvwxyz0123456789+/".

Definition sextet (n : N) : ascii :=
  match String.get (N.to_nat n) base64_alphabet with
  | Some c => c
  | None => "="%char
  end.

(** Three octets make four sextets; a tail of one or two octets is padded
    with [=]. *)
Fixpoint base64_octets (bs : list N) : string :=
  match bs with
  | [] => EmptyString
  | [a] =>
      String (sextet (a / 4))
        (String (sextet ((a mod 4) * 16)) "==")
  | [a; b] =>
      String (sextet (a / 4))
        (String (sextet ((a mod 4) * 16 + b / 16))
           (String (sextet ((b mod 16) * 4)) "="))
  | a :: b :: c :: rest =>
      String (sextet (a / 4))
        (String (sextet ((a mod 4) * 16 + b / 16))
           (String (sextet ((b mod 16) * 4 + c / 64))
              (String (sextet (c mod 64)) (base64_octets rest))))
  end%N.

Definition base64 (s : string) : string :=
  base64_octets (map N_of_ascii (String.list_ascii_of_string s)).

End JS.

Import JS.

(** ** Request descriptors

    The object literal that [_request] passes to the requester. [headers]
    is a JavaScript object used as a string-keyed map. *)

Record request : Type := {
  url : string;
  body : value;
  method : value;
  headers : gmap string string
}.

(** Thrown values: the [Error] objects the client constructs itself, and
    the two engine errors its code can provoke. The message texts of the
    engine errors are the engine's and carry no weight below. *)
Inductive exn : Type :=
| Error (message : string)
| TypeError (message : string)
| ReferenceError (message : string).

(** [this.mode]: never assigned by the constructor, then ["doc"] or
    ["store"]. *)
Inductive mode_t : Type := ModeUndefined | ModeDoc | ModeStore.

Section Client.

(** What a requester call yields. The client has no [try], awaits nothing
    and inspects nothing, so this is kept abstract. *)
Context {R : Type}.

(** A value in requester position: data, or a function on request
    descriptors. *)
Inductive callable : Type :=
| Data (v : value)
| Fn (f : request -> R).

(** [typeof c === "function"] *)
Definition is_function (c : callable) : bool :=
  match c with Fn _ => true | Data _ => false end.

Definition truthy (c : callable) : bool :=
  match c with Fn _ => true | Data v => ToBoolean v end.

(** [a || b] in requester position. *)
Definition or_else (a b : callable) : callable := if truthy a then a else b.

(** The receiver object. *)
Record API : Type := {
  host : value;
  requester : callable;
  apiTokenEncoded : string;
  mode : mode_t;
  docSetId : value;
  docId : value;
  storeObjectId : value
}.

(** [new API(host, apiToken, requester)] *)
Definition new_API (host apiToken : value) (requester : callable) : API :=
  {| host := host;
     requester := requester;
     apiTokenEncoded := base64 (ToString apiToken +:+ ":x-auth-token");
     mode := ModeUndefined;
     docSetId := VUndefined;
     docId := VUndefined;
     storeObjectId := VUndefined |}.

Definition set_mode (m : mode_t) (a : API) : API :=
  {| host := host a; requester := requester a;
     apiTokenEncoded := apiTokenEncoded a; mode := m;
     docSetId := docSetId a; docId := docId a;
     storeObjectId := storeObjectId a |}.

Definition set_docSetId (v : value) (a : API) : API :=
  {| host := host a; requester := requester a;
     apiTokenEncoded := apiTokenEncoded a; mode := mode a;
     docSetId := v; docId := docId a;
     storeObjectId := storeObjectId a |}.

Definition set_docId (v : value) (a : API) : API :=
  {| host := host a; requester := requester a;
     apiTokenEncoded := apiTokenEncoded a; mode := mode a;
     docSetId := docSetId a; docId := v;
     storeObjectId := storeObjectId a |}.

Definition set_storeObjectId (v : value) (a : API) : API :=
  {| host := host a; requester := requester a;
     apiTokenEncoded := apiTokenEncoded a; mode := mode a;
     docSetId := docSetId a; docId := docId a;
     storeObjectId := v |}.

(** *** The world and its monad

    [this] is the one client object, mutated in place by the selectors;
    [globals] is the global scope, where an identifier that no enclosing
    function or module binds is looked up; [calls] lists the requester
    invocations made so far, oldest first. *)
Record world : Type := {
  this : API;
  globals : gmap string value;
  calls : list ((request -> R) * request)
}.

Definition M (A : Type) : Type := world -> (exn + A) * world.

Definition ret {A} (a : A) : M A := fun w => (inr a, w).

Definition bind {A B} (m : M A) (k : A -> M B) : M B :=
  fun w =>
    match m w with
    | (inl e, w') => (inl e, w')
    | (inr a, w') => k a w'
    end.

Definition throw {A} (e : exn) : M A := fun w => (inl e, w).

Definition read_this : M API := fun w => (inr (this w), w).

Definition assign (f : API -> API) : M unit :=
  fun w =>
    (inr tt, {| this := f (this w); globals := globals w; calls := calls w |}).

(** The world after one more requester invocation. *)
Definition record_call (f : request -> R) (req : request) (w : world) : world :=
  {| this := this w; globals := globals w; calls := calls w ++ [(f, req)] |}.

(** [f(req)]: the call is traced and its result handed back. The requester
    is taken not to reach back into the client object or the global
    scope. *)
Definition invoke (f : request -> R) (req : request) : M R :=
  fun w => (inr (f req), record_call f req w).

(** Reading an identifier bound by no enclosing scope. *)
Definition GetValue (name : string) : M value :=
  fun w =>
    match globals w !! name with
    | Some v => (inr v, w)
    | None => (inl (ReferenceError (name +:+ " is not defined")), w)
    end.

(** [v.join(sep)]: only arrays have a [join] method; a data object can
    hold no function under that key. *)
Definition call_join (v : value) (sep : string) : M string :=
  match v with
  | VArr elts => ret (join sep elts)
  | VUndefined | VNull => throw (TypeError "Cannot read property 'join' of undefined")
  | _ => throw (TypeError "join is not a function")
  end.

Local Notation "x <- m ;; k" := (bind m (fun x => k))
  (at level 100, m at next level, right associativity).
Local Notation "m ;; k" := (bind m (fun _ => k))
  (at level 100, right associativity).

(** What a method returns: the receiver (the selectors end in
    [return this]) or whatever the requester returned. *)
Inductive returned : Type :=
| This
| Value (r : R).

(** *** [API.prototype._request] *)

Definition _request (path : string) (rq : callable) (method body : value) : M R :=
  self <- read_this ;;
  let rq := or_else rq (requester self) in
  match rq with
  | Data _ =>
      throw (Error "You must provide a requester function when constructing the class or making the request.")
  | Fn f =>
      let headers : gmap string string :=
        {[ "Authorization" := "Basic " +:+ apiTokenEncoded self ]} in
      let headers :=
        if ToBoolean body
        then <[ "Content-Type" := "application/json" ]> headers
        else headers in
      invoke f {| url := (ToString (host self) +:+ "/api/v1") +:+ path;
                  body := body;
                  method := JS.or method (VStr "GET");
                  headers := headers |}
  end.

(** *** The fluent selectors *)

Definition docSet (id : value) : M returned :=
  assign (set_mode ModeDoc) ;;
  assign (set_docSetId id) ;;
  ret This.

Definition doc (id : value) : M returned :=
  self <- read_this ;;
  if negb (ToBoolean (docSetId self))
  then throw (Error "You must specify a doc set id before picking out a document.")
  else
    assign (set_mode ModeDoc) ;;
    assign (set_docId id) ;;
    ret This.

Definition store : M returned :=
  assign (set_mode ModeStore) ;;
  ret This.

Definition object (id : value) : M returned :=
  assign (set_mode ModeStore) ;;
  assign (set_storeObjectId id) ;;
  ret This.

(** *** The actions *)

Definition getIds (rq : callable) : M R :=
  self <- read_this ;;
  if negb (ToBoolean (docSetId self))
  then throw (Error "Must call docSet() with a set id before using this method.")
  else
    _request
      (("/document-sets/" +:+ ToString (docSetId self)) +:+ "/documents?fields=id")
      rq VUndefined VUndefined.

Definition getDocuments (fields sort : value) (rq : callable) : M R :=
  self <- read_this ;;
  if negb (ToBoolean (docSetId self))
  then throw (Error "Must call docSet() with a set id before using this method.")
  else
    let sortParam := if ToBoolean sort then "&sort=" +:+ ToString sort else EmptyString in
    joined <- call_join (JS.or fields (VArr [VStr "id"; VStr "text"])) "," ;;
    let fieldsParam := "&fields=" +:+ joined in
    let path :=
      ((("/document-sets/" +:+ ToString (docSetId self))
          +:+ "/documents?stream=true") +:+ fieldsParam) +:+ sortParam in
    _request path rq VUndefined VUndefined.

(** In the ["doc"] case the single-document path ends in the bare
    identifier [docId], which no scope of [index.js] binds, and the
    fall-through calls [this.getAllDocuments], a property that neither the
    object nor [API.prototype] has. *)
Definition get (rq : callable) : M R :=
  self <- read_this ;;
  match mode self with
  | ModeDoc =>
      if ToBoolean (docId self)
      then
        let prefix := ("/document-sets/" +:+ ToString (docSetId self)) +:+ "/documents/" in
        id <- GetValue "docId" ;;
        _request (prefix +:+ ToString id) rq VUndefined VUndefined
      else throw (TypeError "this.getAllDocuments is not a function")
  | ModeStore =>
      if ToBoolean (storeObjectId self)
      then
        _request ("/store/objects/" +:+ ToString (storeObjectId self))
          rq VUndefined VUndefined
      else throw (Error "Must specify a specific store object to return first")
  | ModeUndefined =>
      throw (Error "Must specify a document set, document, or store object first.")
  end.

Definition getState (rq : callable) : M R :=
  self <- read_this ;;
  match mode self with
  | ModeStore => _request "/store/state" rq VUndefined VUndefined
  | _ => throw (Error "You must be operating on the store to set state.")
  end.

Definition setState (state : value) (rq : callable) : M R :=
  self <- read_this ;;
  match mode self with
  | ModeStore => _request "/store/state" rq (VStr "PUT") state
  | _ => throw (Error "You must be operating on the store to set state.")
  end.

Definition getObjects (rq : callable) : M R :=
  self <- read_this ;;
  match mode self with
  | ModeStore => _request "/store/objects" rq VUndefined VUndefined
  | _ => throw (Error "You must be operating on the store to get its objects.")
  end.

Definition createObject (state : value) (rq : callable) : M R :=
  _request "/store/objects" rq (VStr "POST") state.

Definition updateStoreObject (state : value) (rq : callable) : M R :=
  self <- read_this ;;
  if negb (ToBoolean (storeObjectId self))
  then throw (Error "You must specify a store object id before calling this method.")
  else
    _request ("/store/objects/" +:+ ToString (storeObjectId self))
      rq (VStr "PUT") state.

(** *** Calls and sessions *)

(** One method call on the client, with its arguments; an argument left
    out is [undefined]. *)
Inductive call : Type :=
| Call_docSet (id : value)
| Call_doc (id : value)
| Call_store
| Call_object (id : value)
| Call_getIds (rq : callable)
| Call_getDocuments (fields sort : value) (rq : callable)
| Call_get (rq : callable)
| Call_getState (rq : callable)
| Call_setState (state : value) (rq : callable)
| Call_getObjects (rq : callable)
| Call_createObject (state : value) (rq : callable)
| Call_updateStoreObject (state : value) (rq : callable).

Definition action (m : M R) : M returned := r <- m ;; ret (Value r).

Definition perform (c : call) : M returned :=
  match c with
  | Call_docSet id => docSet id
  | Call_doc id => doc id
  | Call_store => store
  | Call_object id => object id
  | Call_getIds rq => action (getIds rq)
  | Call_getDocuments fields sort rq => action (getDocuments fields sort rq)
  | Call_get rq => action (get rq)
  | Call_getState rq => action (getState rq)
  | Call_setState state rq => action (setState state rq)
  | Call_getObjects rq => action (getObjects rq)
  | Call_createObject state rq => action (createObject state rq)
  | Call_updateStoreObject state rq => action (updateStoreObject state rq)
  end.

(** A caller making the calls of [cs] one after another, going on after a
    call that throws. *)
Fixpoint session (cs : list call) (w : world) : world :=
  match cs with
  | [] => w
  | c :: cs => session cs (snd (perform c w))
  end.

(** The world right after construction. *)
Definition boot (host apiToken : value) (requester : callable)
    (globals : gmap string value) : world :=
  {| this := new_API host apiToken requester; globals := globals; calls := [] |}.

End Client.

Arguments callable R : clear implicits.
Arguments API R : clear implicits.
Arguments world R : clear implicits.
Arguments M R A : clear implicits.
Arguments returned R : clear implicits.
Arguments call R : clear implicits.

(** ** Vocabulary of the properties *)

(** The two kinds of error the client raises on its own account. All are
    plain [Error] objects in [index.js]; the kind is told by the message:
    the one of [_request] for a missing requester, and the seven of the
    selectors and actions for a missing selection. *)
Definition is_ConfigurationError (e : exn) : bool :=
  match e with
  | Error m =>
      String.eqb m
        "You must provide a requester function when constructing the class or making the request."
  | _ => false
  end.

Definition precondition_messages : list string :=
  [ "You must specify a doc set id before picking out a document.";
    "Must call docSet() with a set id before using this method.";
    "Must specify a specific store object to return first";
    "Must specify a document set, document, or store object first.";
    "You must be operating on the store to set state.";
    "You must be operating on the store to get its objects.";
    "You must specify a store object id before calling this method." ].

Definition is_PreconditionError (e : exn) : bool :=
  match e with
  | Error m => existsb (String.eqb m) precondition_messages
  | _ => false
  end.

(** The per-call requester argument of an action; the selectors take none. *)
Definition requester_of {R} (c : call R) : option (callable R) :=
  match c with
  | Call_docSet _ | Call_doc _ | Call_store | Call_object _ => None
  | Call_getIds rq
  | Call_getDocuments _ _ rq
  | Call_get rq
  | Call_getState rq
  | Call_setState _ rq
  | Call_getObjects rq
  | Call_createObject _ rq
  | Call_updateStoreObject _ rq => Some rq
  end.

(** The checks an action makes on the receiver before it hands over to
    [_request]; [createObject] makes none. The ["doc"] case of [get] is left
    out: it does not get as far as [_request] on its own checks alone. *)
Definition preconditions_met {R} (c : call R) (a : API R) : bool :=
  match c with
  | Call_docSet _ | Call_doc _ | Call_store | Call_object _ => false
  | Call_getIds _ => ToBoolean (docSetId a)
  | Call_getDocuments fields _ _ =>
      ToBoolean (docSetId a)
      && match JS.or fields (VArr [VStr "id"; VStr "text"]) with
         | VArr _ => true
         | _ => false
         end
  | Call_get _ =>
      match mode a with
      | ModeStore => ToBoolean (storeObjectId a)
      | _ => false
      end
  | Call_getState _ | Call_setState _ _ | Call_getObjects _ =>
      match mode a with ModeStore => true | _ => false end
  | Call_createObject _ _ => true
  | Call_updateStoreObject _ _ => ToBoolean (storeObjectId a)
  end.

(** The descriptor [_request] builds on receiver [a] once a requester has
    been found; [_request_resolved] below ties it to the code. *)
Definition descriptor {R} (a : API R) (path : string) (method body : value) : request :=
  {| url := ToString (host a) +:+ "/api/v1" +:+ path;
     body := body;
     method := JS.or method (VStr "GET");
     headers :=
       if ToBoolean body
       then <[ "Content-Type" := "application/json" ]>
              ({[ "Authorization" := "Basic " +:+ apiTokenEncoded a ]} : gmap string string)
       else {[ "Authorization" := "Basic " +:+ apiTokenEncoded a ]} |}.

(** [needle] occurs in [s] as a contiguous piece. *)
Definition contains (needle s : string) : Prop :=
  exists pre post, s = pre +:+ needle +:+ post.

Fixpoint starts_with (p s : string) : bool :=
  match p, s with
  | EmptyString, _ => true
  | String a p', String b s' => Ascii.eqb a b && starts_with p' s'
  | String _ _, EmptyString => false
  end.

Fixpoint occursb (needle s : string) : bool :=
  starts_with needle s
  || match s with
     | EmptyString => false
     | String _ s' => occursb needle s'
     end.

Fixpoint has_char (c : ascii) (s : string) : bool :=
  match s with
  | EmptyString => false
  | String a s' => Ascii.eqb c a || has_char c s'
  end.

(** A requester for the concrete runs: it hands back the descriptor it was
    given, so the result shows what was sent. *)
Definition echo : request -> request := fun req => req.

(** The client of the test suite, in a global scope with no [docId]. *)
Definition test_client : world request :=
  boot (VStr "https://google.com") (VStr "testToken") (Fn echo) ∅.

(** The same with no requester given at construction. *)
Definition bare_client : world request :=
  boot (VStr "https://google.com") (VStr "testToken") (Data VUndefined) ∅.

(** ** The stateless client

    The repository also holds the library in an earlier shape: the
    constructor keeps only the host and the encoded token, every action
    takes the requester and the ids as arguments, and the requester is
    called with four positional arguments instead of one descriptor. No
    method assigns to [this], so the methods are functions of the
    receiver. *)

Module Stateless.

Section Stateless.

Context {R : Type}.

(** A value in requester position: data, or a function of
    [(url, method, headers, body)]. *)
Inductive callable : Type :=
| Data (v : value)
| Fn (f : string -> value -> gmap string string -> value -> R).

Record API : Type := {
  host : value;
  apiTokenEncoded : string
}.

(** [new API(host, apiToken)] *)
Definition new_API (host apiToken : value) : API :=
  {| host := host;
     apiTokenEncoded := base64 (ToString apiToken +:+ ":x-auth-token") |}.

Definition buildRequestUrl (self : API) (path : value) : string :=
  (ToString (host self) +:+ "/api/v1") +:+ ToString path.

(** [request]: there is no [typeof] test here; calling a requester that is
    not a function is the engine's [TypeError]. *)
Definition request (self : API) (requester : callable) (path method body : value)
    : exn + R :=
  let headers : gmap string string :=
    {[ "Authorization" := "Basic " +:+ apiTokenEncoded self ]} in
  let headers :=
    if ToBoolean body
    then <[ "Content-Type" := "application/json" ]> headers
    else headers in
  match requester with
  | Fn f =>
      inr (f (buildRequestUrl self path) (JS.or method (VStr "GET")) headers body)
  | Data _ => inl (TypeError "requester is not a function")
  end.

Definition getDocumentIds (self : API) (requester : callable) (docSetId : value)
    : exn + R :=
  request self requester
    (VStr (("/document-sets/" +:+ ToString docSetId) +:+ "/documents?fields=id"))
    VUndefined VUndefined.

Definition getDocument (self : API) (requester : callable) (docId docSetId : value)
    : exn + R :=
  request self requester
    (VStr ((("/document-sets/" +:+ ToString docSetId) +:+ "/documents/")
             +:+ ToString docId))
    VUndefined VUndefined.

Definition getAllDocuments (self : API) (requester : callable) (docSetId sort : value)
    : exn + R :=
  request self requester
    (VStr ((("/document-sets/" +:+ ToString docSetId)
              +:+ "/documents?stream=true&fields=id,text&sort=") +:+ ToString sort))
    VUndefined VUndefined.

Definition getStoreState (self : API) (requester : callable) : exn + R :=
  request self requester (VStr "/store/state") VUndefined VUndefined.

Definition setStoreState (self : API) (requester : callable) (state : value)
    : exn + R :=
  request self requester (VStr "/store/state") (VStr "PUT") state.

Definition getStoreObjects (self : API) (requester : callable) : exn + R :=
  request self requester (VStr "/store/objects") VUndefined VUndefined.

Definition createStoreObject (self : API) (requester : callable) (state : value)
    : exn + R :=
  request self requester (VStr "/store/objects") (VStr "POST") state.

Definition updateStoreObject (self : API) (requester : callable)
    (storeObjectId state : value) : exn + R :=
  request self requester
    (VStr ("/store/objects/" +:+ ToString storeObjectId)) (VStr "PUT") state.

(** One action of the stateless client, with its arguments after the
    requester. *)
Inductive call : Type :=
| Call_getDocumentIds (docSetId : value)
| Call_getDocument (docId docSetId : value)
| Call_getAllDocuments (docSetId sort : value)
| Call_getStoreState
| Call_setStoreState (state : value)
| Call_getStoreObjects
| Call_createStoreObject (state : value)
| Call_updateStoreObject (storeObjectId state : value).

Definition perform (self : API) (requester : callable) (c : call) : exn + R :=
  match c with
  | Call_getDocumentIds docSetId => getDocumentIds self requester docSetId
  | Call_getDocument docId docSetId => getDocument self requester docId docSetId
  | Call_getAllDocuments docSetId sort => getAllDocuments self requester docSetId sort
  | Call_getStoreState => getStoreState self requester
  | Call_setStoreState state => setStoreState self requester state
  | Call_getStoreObjects => getStoreObjects self requester
  | Call_createStoreObject state => createStoreObject self requester state
  | Call_updateStoreObject storeObjectId state =>
      updateStoreObject self requester storeObjectId state
  end.

End Stateless.

Arguments callable R : clear implicits.

End Stateless.

(** The stateless client with the host and token of a fluent one. *)
Definition stateless_of {R} (a : API R) : Stateless.API :=
  {| Stateless.host := host a; Stateless.apiTokenEncoded := apiTokenEncoded a |}.

(** A descriptor-taking requester, made to take the four positional
    arguments. *)
Definition positional {R} (f : request -> R)
    : string -> value -> gmap string string -> value -> R :=
  fun u m h b => f {| url := u; body := b; method := m; headers := h |}.

(** ** Reading base64 back

    The inverse of [JS.base64_octets], used to show that the encoded token
    loses nothing. *)

Fixpoint index_of (c : ascii) (s : string) : N :=
  match s with
  | EmptyString => 0
  | String a s' => if Ascii.eqb c a then 0 else N.succ (index_of c s')
  end.

Definition unsextet (c : ascii) : N := index_of c base64_alphabet.

Fixpoint unbase64 (s : string) : list N :=
  match s with
  | String c1 (String c2 (String c3 (String c4 rest))) =>
      let s1 := unsextet c1 in
      let s2 := unsextet c2 in
      let s3 := unsextet c3 in
      let s4 := unsextet c4 in
      if Ascii.eqb c3 "="
      then [s1 * 4 + s2 / 16]
      else if Ascii.eqb c4 "="
      then [s1 * 4 + s2 / 16; (s2 mod 16) * 16 + s3 / 4]
      else (s1 * 4 + s2 / 16)
             :: ((s2 mod 16) * 16 + s3 / 4)
             :: ((s3 mod 4) * 64 + s4)
             :: unbase64 rest
  | _ => []
  end%N.

(** ** Strings *)

Lemma app_cons (a : ascii) (s t : string) : String a s +:+ t = String a (s +:+ t).
Proof. reflexivity. Qed.

Lemma app_empty_l (t : string) : EmptyString +:+ t = t.
Proof. reflexivity. Qed.

Lemma app_empty_r (s : string) : s +:+ EmptyString = s.
Proof. induction s as [|a s IH]; [reflexivity|]. rewrite app_cons. by f_equal. Qed.

Lemma app_assoc_str (s t u : string) : (s +:+ t) +:+ u = s +:+ (t +:+ u).
Proof.
  induction s as [|a s IH]; [reflexivity|].
  rewrite !app_cons. by f_equal.
Qed.

Lemma starts_with_spec (p s : string) :
  starts_with p s = true <-> exists post, s = p +:+ post.
Proof.
  revert s. induction p as [|a p IH]; intros s; simpl.
  - split; [intros _; by exists s | done].
  - destruct s as [|b s].
    + split; [done | intros [post Hpost]; rewrite app_cons in Hpost; discriminate].
    + rewrite andb_true_iff, Ascii.eqb_eq, IH. split.
      * intros [-> [post ->]]. by exists post.
      * intros [post Hpost]. rewrite app_cons in Hpost.
        injection Hpost as -> ->. split; [done | by exists post].
Qed.

Lemma occursb_spec (needle s : string) :
  occursb needle s = true <-> contains needle s.
Proof.
  induction s as [|b s IH].
  - simpl. rewrite orb_false_r, starts_with_spec. split.
    + intros [post Hpost]. by exists EmptyString, post.
    + intros [[|a pre] [post Hpost]].
      * by exists post.
      * rewrite app_cons in Hpost. discriminate.
  - cbn [occursb]. rewrite orb_true_iff, starts_with_spec, IH. split.
    + intros [[post Hpost] | [pre [post Hpost]]].
      * by exists EmptyString, post.
      * exists (String b pre), post. rewrite app_cons. by f_equal.
    + intros [[|a pre] [post Hpost]].
      * left. by exists post.
      * right. rewrite app_cons in Hpost. injection Hpost as _ ->.
        by exists pre, post.
Qed.

Lemma contains_app_r (needle s t : string) :
  contains needle t -> contains needle (s +:+ t).
Proof.
  intros [pre [post ->]]. exists (s +:+ pre), post. by rewrite app_assoc_str.
Qed.

Lemma contains_app_l (needle s t : string) :
  contains needle s -> contains needle (s +:+ t).
Proof.
  intros [pre [post ->]]. exists pre, (post +:+ t). by rewrite !app_assoc_str.
Qed.

Lemma prefix_before_separator (c : ascii) (needle post l r : string) :
  has_char c needle = false ->
  needle +:+ post = l +:+ String c r ->
  exists post', l = needle +:+ post'.
Proof.
  revert l. induction needle as [|a n IH]; intros l Hc Heq.
  - by exists l.
  - simpl in Hc. apply orb_false_iff in Hc as [Hca Hcn].
    destruct l as [|b l].
    + rewrite app_cons, app_empty_l in Heq. injection Heq as -> _.
      by rewrite Ascii.eqb_refl in Hca.
    + rewrite !app_cons in Heq. injection Heq as -> Heq.
      destruct (IH l Hcn Heq) as [post' ->]. by exists post'.
Qed.

(** An occurrence cannot straddle a character that the needle lacks. *)
Lemma contains_separator (c : ascii) (needle l r : string) :
  has_char c needle = false ->
  contains needle (l +:+ String c r) ->
  contains needle l \/ contains needle r.
Proof.
  intros Hc [pre [post Heq]]. revert l Heq.
  induction pre as [|a pre IH]; intros l Heq.
  - left. rewrite app_empty_l in Heq. symmetry in Heq.
    destruct (prefix_before_separator c needle post l r Hc Heq) as [post' ->].
    by exists EmptyString, post'.
  - destruct l as [|b l].
    + right. rewrite app_empty_l, app_cons in Heq. injection Heq as _ ->.
      by exists pre, post.
    + rewrite !app_cons in Heq. injection Heq as _ Heq.
      destruct (IH l Heq) as [[pre' [post' ->]] | Hr]; [left | by right].
      exists (String b pre'), post'. by rewrite app_cons.
Qed.

Lemma not_contains (needle s : string) :
  occursb needle s = false -> ~ contains needle s.
Proof. intros Hocc Hc. apply occursb_spec in Hc. congruence. Qed.

(** ** Properties of the client *)

Section Properties.

Context {R : Type}.
Implicit Types (w : world R) (a : API R) (rq : callable R) (c : call R).
Implicit Types (f : request -> R) (req : request) (v id state : value).

(** *** [_request] *)

Lemma _request_resolved (path : string) rq (method body : value) w f :
  or_else rq (requester (this w)) = Fn f ->
  _request path rq method body w
  = (inr (f (descriptor (this w) path method body)),
     record_call f (descriptor (this w) path method body) w).
Proof.
  intros Hf. unfold _request, bind, read_this. rewrite Hf.
  unfold invoke, descriptor. by rewrite app_assoc_str.
Qed.

Lemma _request_unresolved (path : string) rq (method body : value) w :
  is_function (or_else rq (requester (this w))) = false ->
  _request path rq method body w
  = (inl (Error "You must provide a requester function when constructing the class or making the request."),
     w).
Proof.
  intros Hf. unfold _request, bind, read_this.
  by destruct (or_else rq (requester (this w))).
Qed.

Lemma or_else_not_function rq1 rq2 :
  is_function rq1 = false -> is_function rq2 = false ->
  is_function (or_else rq1 rq2) = false.
Proof. intros H1 H2. unfold or_else. by destruct (truthy rq1). Qed.

Lemma _request_cases (path : string) rq (method body : value) w :
  _request path rq method body w
  = (inl (Error "You must provide a requester function when constructing the class or making the request."),
     w)
  \/ exists f,
      _request path rq method body w
      = (inr (f (descriptor (this w) path method body)),
         record_call f (descriptor (this w) path method body) w).
Proof.
  destruct (or_else rq (requester (this w))) as [v|f] eqn:Hrq.
  - left. apply _request_unresolved. by rewrite Hrq.
  - right. exists f. by apply _request_resolved.
Qed.

(** *** Running a call symbolically *)

Ltac unfold_call :=
  cbv beta iota zeta delta
    [perform action docSet doc store object getIds getDocuments get getState
     setState getObjects createObject updateStoreObject call_join GetValue
     bind ret throw read_this assign].

Ltac step_request :=
  match goal with
  | |- context [_request ?p ?rq ?m ?b ?w] =>
      let H := fresh "Hreq" in
      destruct (_request_cases p rq m b w) as [H | [? H]];
      rewrite H; clear H; cbv beta iota zeta
  end.

Ltac branch :=
  match goal with
  | |- context [match ?x with _ => _ end] =>
      lazymatch x with
      | context [@_request] => fail
      | context [match _ with _ => _ end] => fail
      | _ => destruct x eqn:?; cbv beta iota zeta
      end
  end.

Ltac run_call := unfold_call; repeat first [step_request | branch].

(** A call leaves the construction-time fields and the global scope
    alone, and adds at most one entry to the trace: a descriptor built by
    [_request] on the receiver as it stood before the call. *)
Lemma perform_step c w :
  host (this (snd (perform c w))) = host (this w)
  /\ requester (this (snd (perform c w))) = requester (this w)
  /\ apiTokenEncoded (this (snd (perform c w))) = apiTokenEncoded (this w)
  /\ globals (snd (perform c w)) = globals w
  /\ (calls (snd (perform c w)) = calls w
      \/ exists f path method body,
          calls (snd (perform c w))
          = calls w ++ [(f, descriptor (this w) path method body)]).
Proof.
  destruct c; run_call; simpl; repeat split; eauto 10.
Qed.

(** *** The selectors *)

(** C3 (as amended). [docSet id] puts the client in ["doc"] mode and
    stores [id] as the document-set id; it returns the receiver, throws
    nothing, calls no requester, and leaves every other field as it was:
    a document id selected earlier stays selected. *)
Theorem docSet_sets_mode_and_set_only id w :
  docSet id w
  = (inr This,
     {| this := set_docSetId id (set_mode ModeDoc (this w));
        globals := globals w;
        calls := calls w |})
  /\ mode (this (snd (docSet id w))) = ModeDoc
  /\ docSetId (this (snd (docSet id w))) = id
  /\ docId (this (snd (docSet id w))) = docId (this w)
  /\ storeObjectId (this (snd (docSet id w))) = storeObjectId (this w).
Proof. by repeat split. Qed.

(** C4 (as amended). [store()] puts the client in ["store"] mode; it
    returns the receiver, throws nothing, calls no requester, and leaves
    every other field as it was: a store-object id selected earlier stays
    selected. *)
Theorem store_sets_mode_only w :
  store w
  = (inr This,
     {| this := set_mode ModeStore (this w);
        globals := globals w;
        calls := calls w |})
  /\ mode (this (snd (store w))) = ModeStore
  /\ storeObjectId (this (snd (store w))) = storeObjectId (this w)
  /\ docSetId (this (snd (store w))) = docSetId (this w)
  /\ docId (this (snd (store w))) = docId (this w).
Proof. by repeat split. Qed.

(** *** Errors *)

(** C6. A call that ends in one of the client's own errors, for a missing
    selection or for a missing requester, has changed nothing: the trace
    of requester invocations is the one before the call, and so are the
    mode and the three ids. *)
Theorem own_errors_precede_any_effect c w w' (e : exn) :
  perform c w = (inl e, w') ->
  is_PreconditionError e || is_ConfigurationError e = true ->
  w' = w
  /\ calls w' = calls w
  /\ mode (this w') = mode (this w)
  /\ docSetId (this w') = docSetId (this w)
  /\ docId (this w') = docId (this w)
  /\ storeObjectId (this w') = storeObjectId (this w).
Proof.
  intros Hrun Hkind.
  assert (w' = w) as ->; [|done].
  revert Hrun Hkind.
  destruct c; run_call; intros Hrun Hkind; by simplify_eq.
Qed.

Ltac run_unresolved :=
  unfold_call;
  repeat first
    [ rewrite _request_unresolved by (by apply or_else_not_function)
    | branch ].

(** Without a requester no call reaches one. *)
Lemma no_requester_no_call c w rq :
  requester_of c = Some rq ->
  is_function rq = false ->
  is_function (requester (this w)) = false ->
  calls (snd (perform c w)) = calls w.
Proof.
  intros Hc Hrq Hdefault.
  destruct c; simpl in Hc; simplify_eq; by run_unresolved.
Qed.

(** C7 (as amended). When neither the per-call argument nor the
    construction-time requester is a function, an action whose own checks
    on the receiver pass fails in [_request] with the missing-requester
    error, and the client is left as it was; and whatever the checks say,
    no requester is invoked. *)
Theorem no_requester_ConfigurationError c w rq :
  requester_of c = Some rq ->
  is_function rq = false ->
  is_function (requester (this w)) = false ->
  calls (snd (perform c w)) = calls w
  /\ (preconditions_met c (this w) = true ->
      perform c w
      = (inl (Error "You must provide a requester function when constructing the class or making the request."),
         w)
      /\ is_ConfigurationError
           (Error "You must provide a requester function when constructing the class or making the request.")
         = true).
Proof.
  intros Hc Hrq Hdefault. split; [by eapply no_requester_no_call|].
  intros Hpre. split; [|done].
  destruct c; simpl in Hc, Hpre; simplify_eq.
  - unfold_call. rewrite Hpre. cbv beta iota zeta delta [negb].
    by rewrite _request_unresolved by (by apply or_else_not_function).
  - apply andb_true_iff in Hpre as [Hid Hfields].
    unfold_call. rewrite Hid. cbv beta iota zeta delta [negb].
    destruct (JS.or fields (VArr [VStr "id"; VStr "text"])); try done.
    cbv beta iota zeta.
    by rewrite _request_unresolved by (by apply or_else_not_function).
  - unfold_call. destruct (mode (this w)); try done. rewrite Hpre. cbv beta iota.
    by rewrite _request_unresolved by (by apply or_else_not_function).
  - unfold_call. destruct (mode (this w)); try done.
    by rewrite _request_unresolved by (by apply or_else_not_function).
  - unfold_call. destruct (mode (this w)); try done.
    by rewrite _request_unresolved by (by apply or_else_not_function).
  - unfold_call. destruct (mode (this w)); try done.
    by rewrite _request_unresolved by (by apply or_else_not_function).
  - unfold_call.
    by rewrite _request_unresolved by (by apply or_else_not_function).
  - unfold_call. rewrite Hpre. cbv beta iota zeta delta [negb].
    by rewrite _request_unresolved by (by apply or_else_not_function).
Qed.

(** *** The actions *)

(** C9. Whatever the mode and the ids, as soon as a requester resolves
    [createObject state] calls it once, with a POST to
    [/store/objects] under the host's [/api/v1] whose body is [state], and
    returns what it returned. *)
Theorem createObject_needs_no_mode state rq w f :
  or_else rq (requester (this w)) = Fn f ->
  exists req,
    createObject state rq w = (inr (f req), record_call f req w)
    /\ url req = ToString (host (this w)) +:+ "/api/v1/store/objects"
    /\ method req = VStr "POST"
    /\ body req = state
    /\ calls (record_call f req w) = calls w ++ [(f, req)]
    /\ this (record_call f req w) = this w.
Proof.
  intros Hf. exists (descriptor (this w) "/store/objects" (VStr "POST") state).
  unfold createObject. by rewrite (_request_resolved _ _ _ _ _ f Hf).
Qed.

(** C10. The id checks are truthiness checks. After [docSet v] with a
    falsy [v], [doc], [getIds] and [getDocuments] throw their
    missing-selection error and change nothing; after [object v] with a
    falsy [v], so does [updateStoreObject]; and the error is the very one
    a client with no id selected gets. *)
Theorem falsy_id_counts_as_none v id fields sort state rq w :
  ToBoolean v = false ->
  let w1 := snd (docSet v w) in
  let w2 := snd (object v w) in
  doc id w1
  = (inl (Error "You must specify a doc set id before picking out a document."), w1)
  /\ getIds rq w1
     = (inl (Error "Must call docSet() with a set id before using this method."), w1)
  /\ getDocuments fields sort rq w1
     = (inl (Error "Must call docSet() with a set id before using this method."), w1)
  /\ updateStoreObject state rq w2
     = (inl (Error "You must specify a store object id before calling this method."), w2)
  /\ is_PreconditionError
       (Error "You must specify a doc set id before picking out a document.") = true
  /\ is_PreconditionError
       (Error "Must call docSet() with a set id before using this method.") = true
  /\ is_PreconditionError
       (Error "You must specify a store object id before calling this method.") = true
  /\ (forall w0, docSetId (this w0) = VUndefined ->
        fst (doc id w0) = fst (doc id w1)
        /\ fst (getIds rq w0) = fst (getIds rq w1)
        /\ fst (getDocuments fields sort rq w0) = fst (getDocuments fields sort rq w1))
  /\ (forall w0, storeObjectId (this w0) = VUndefined ->
        fst (updateStoreObject state rq w0) = fst (updateStoreObject state rq w2)).
Proof.
  intros Hv. cbv zeta.
  assert (Hdoc : doc id (snd (docSet v w))
    = (inl (Error "You must specify a doc set id before picking out a document."),
       snd (docSet v w))).
  { unfold doc, bind, read_this, throw. simpl. by rewrite Hv. }
  assert (Hids : getIds rq (snd (docSet v w))
    = (inl (Error "Must call docSet() with a set id before using this method."),
       snd (docSet v w))).
  { unfold getIds, bind, read_this, throw. simpl. by rewrite Hv. }
  assert (Hdocs : getDocuments fields sort rq (snd (docSet v w))
    = (inl (Error "Must call docSet() with a set id before using this method."),
       snd (docSet v w))).
  { unfold getDocuments, bind, read_this, throw. simpl. by rewrite Hv. }
  assert (Hupd : updateStoreObject state rq (snd (object v w))
    = (inl (Error "You must specify a store object id before calling this method."),
       snd (object v w))).
  { unfold updateStoreObject, bind, read_this, throw. simpl. by rewrite Hv. }
  rewrite Hdoc, Hids, Hdocs, Hupd.
  do 7 (split; [reflexivity|]). split.
  - intros w0 Hnone.
    unfold doc, getIds, getDocuments, bind, read_this, throw.
    by rewrite Hnone.
  - intros w0 Hnone.
    unfold updateStoreObject, bind, read_this, throw.
    by rewrite Hnone.
Qed.

(** The path of the documents query is free of [sort=] whenever the
    document-set id is: the pieces the code puts around the id do not
    hold it, and [/] keeps an occurrence from straddling two pieces. *)
Lemma default_query_has_no_sort (set_id : string) :
  ~ contains "sort=" set_id ->
  ~ contains "sort="
      ("/document-sets/" +:+ set_id +:+ "/documents?stream=true&fields=id,text").
Proof.
  intros Hid Hpath.
  change ("/document-sets/" +:+ set_id +:+ "/documents?stream=true&fields=id,text")
    with ("/document-sets"
            +:+ String "/" (set_id +:+ String "/" "documents?stream=true&fields=id,text"))
    in Hpath.
  apply (contains_separator "/") in Hpath as [Hl | Hr]; [| |done].
  - by apply not_contains in Hl.
  - apply (contains_separator "/") in Hr as [Hl | Hr]; [done| |done].
    by apply not_contains in Hr.
Qed.

(** C8. With a document set selected and a requester at hand,
    [getDocuments()] asks for [stream=true] and [fields=id,text] and adds
    no sort parameter, and [getDocuments(["a","b"], "date")] asks for
    [fields=a,b] followed by [&sort=date]. *)
Theorem getDocuments_query_string w rq f :
  ToBoolean (docSetId (this w)) = true ->
  or_else rq (requester (this w)) = Fn f ->
  let set_id := ToString (docSetId (this w)) in
  (exists req path,
      getDocuments VUndefined VUndefined rq w = (inr (f req), record_call f req w)
      /\ url req = ToString (host (this w)) +:+ "/api/v1" +:+ path
      /\ path = "/document-sets/" +:+ set_id +:+ "/documents?stream=true&fields=id,text"
      /\ contains "stream=true" path
      /\ contains "fields=id,text" path
      /\ ~ contains "sort=" "/documents?stream=true&fields=id,text"
      /\ (~ contains "sort=" set_id -> ~ contains "sort=" path))
  /\ (exists req path,
        getDocuments (VArr [VStr "a"; VStr "b"]) (VStr "date") rq w
        = (inr (f req), record_call f req w)
        /\ url req = ToString (host (this w)) +:+ "/api/v1" +:+ path
        /\ path = "/document-sets/" +:+ set_id +:+ "/documents?stream=true&fields=a,b&sort=date"
        /\ contains "fields=a,b" path
        /\ contains "&sort=date" path).
Proof.
  intros Hset Hf. cbv zeta. split.
  - eexists _, _. split; [|split; [|split; [reflexivity|]]].
    + unfold getDocuments, bind, read_this. rewrite Hset.
      change (JS.or VUndefined (VArr [VStr "id"; VStr "text"]))
        with (VArr [VStr "id"; VStr "text"]).
      change (ToBoolean VUndefined) with false.
      cbv beta iota zeta delta [negb call_join ret].
      rewrite (_request_resolved _ _ _ _ _ f Hf). reflexivity.
    + cbn [url descriptor]. by rewrite !app_assoc_str.
    + split; [|split; [|split]].
      * apply contains_app_r, contains_app_r. by apply occursb_spec.
      * apply contains_app_r, contains_app_r. by apply occursb_spec.
      * by apply not_contains.
      * apply default_query_has_no_sort.
  - eexists _, _. split; [|split; [|split; [reflexivity|]]].
    + unfold getDocuments, bind, read_this. rewrite Hset.
      change (JS.or (VArr [VStr "a"; VStr "b"]) (VArr [VStr "id"; VStr "text"]))
        with (VArr [VStr "a"; VStr "b"]).
      change (ToBoolean (VStr "date")) with true.
      cbv beta iota zeta delta [negb call_join ret].
      rewrite (_request_resolved _ _ _ _ _ f Hf). reflexivity.
    + cbn [url descriptor]. by rewrite !app_assoc_str.
    + split.
      * apply contains_app_r, contains_app_r. by apply occursb_spec.
      * apply contains_app_r, contains_app_r. by apply occursb_spec.
Qed.

(** *** Headers *)

(** The headers of a descriptor, read off its own body and the encoded
    token of the client that built it. *)
Lemma descriptor_headers a (path : string) (m b : value) :
  headers (descriptor a path m b) !! "Authorization"
  = Some ("Basic " +:+ apiTokenEncoded a)
  /\ headers (descriptor a path m b) !! "Content-Type"
     = (if ToBoolean b then Some "application/json" else None)
  /\ body (descriptor a path m b) = b.
Proof.
  unfold descriptor; simpl. destruct (ToBoolean b); by simplify_map_eq.
Qed.

(** Through a whole session the encoded token stays what the constructor
    made it, and every traced request carries the headers that go with
    it. *)
Lemma session_headers (token : string) (cs : list (call R)) w :
  apiTokenEncoded (this w) = token ->
  Forall (fun entry =>
            headers entry.2 !! "Authorization" = Some ("Basic " +:+ token)
            /\ headers entry.2 !! "Content-Type"
               = (if ToBoolean (body entry.2) then Some "application/json" else None))
         (calls w) ->
  Forall (fun entry =>
            headers entry.2 !! "Authorization" = Some ("Basic " +:+ token)
            /\ headers entry.2 !! "Content-Type"
               = (if ToBoolean (body entry.2) then Some "application/json" else None))
         (calls (session cs w)).
Proof.
  revert w. induction cs as [|c cs IH]; intros w Htoken Hcalls; [done|].
  simpl. destruct (perform_step c w) as (_ & _ & Henc & _ & Htrace).
  apply IH; [congruence|].
  destruct Htrace as [-> | (f & path & m & b & ->)]; [done|].
  apply Forall_app. split; [done|]. apply Forall_singleton. cbn [snd].
  destruct (descriptor_headers (this w) path m b) as (Hauth & Hct & Hbody).
  rewrite Hauth, Hct, Hbody, Htoken. done.
Qed.

(** C5 (as amended). Every request that any session of calls on a
    constructed client hands to a requester carries
    [Authorization: Basic base64(apiToken + ":x-auth-token")], and
    carries [Content-Type: application/json] exactly when its body is
    truthy; with a falsy body there is no [Content-Type] entry at all. *)
Theorem every_request_is_authorized
    (host_ apiToken : value) (default : callable R) (g : gmap string value)
    (cs : list (call R)) f req :
  (f, req) ∈ calls (session cs (boot host_ apiToken default g)) ->
  headers req !! "Authorization"
  = Some ("Basic " +:+ base64 (ToString apiToken +:+ ":x-auth-token"))
  /\ (headers req !! "Content-Type" = Some "application/json"
      <-> ToBoolean (body req) = true)
  /\ (ToBoolean (body req) = false -> headers req !! "Content-Type" = None).
Proof.
  intros Hin.
  pose proof (session_headers
                (base64 (ToString apiToken +:+ ":x-auth-token")) cs
                (boot host_ apiToken default g) eq_refl (Forall_nil_2 _)) as Hall.
  rewrite Forall_forall in Hall. destruct (Hall _ Hin) as [Hauth Hct].
  simpl in Hauth, Hct. split; [done|]. rewrite Hct.
  destruct (ToBoolean (body req)); by repeat split.
Qed.

(** *** The ["doc"] case of [get] *)

(** With a document selected, [get] reads the free identifier [docId]:
    unbound, the read throws before [_request] is reached. *)
Lemma get_document_unbound rq w :
  mode (this w) = ModeDoc ->
  ToBoolean (docId (this w)) = true ->
  globals w !! "docId" = None ->
  get rq w = (inl (ReferenceError "docId is not defined"), w).
Proof.
  intros Hmode Hdoc Hglobal.
  unfold get, GetValue, bind, read_this. by rewrite Hmode, Hdoc, Hglobal.
Qed.

(** Bound by some other script, it is the global's value that lands in
    the path, not the selected document id. *)
Lemma get_document_global rq w (g : value) f :
  mode (this w) = ModeDoc ->
  ToBoolean (docId (this w)) = true ->
  globals w !! "docId" = Some g ->
  or_else rq (requester (this w)) = Fn f ->
  exists req,
    get rq w = (inr (f req), record_call f req w)
    /\ url req
       = ToString (host (this w)) +:+ "/api/v1" +:+ "/document-sets/"
           +:+ ToString (docSetId (this w)) +:+ "/documents/" +:+ ToString g.
Proof.
  intros Hmode Hdoc Hglobal Hf. eexists. split.
  - unfold get, GetValue, bind, read_this. rewrite Hmode, Hdoc, Hglobal.
    by rewrite (_request_resolved _ _ _ _ _ f Hf).
  - cbn [url descriptor]. by rewrite !app_assoc_str.
Qed.

(** With a document set but no document selected, [get] calls a method
    the object does not have. *)
Lemma get_documents_no_such_method rq w :
  mode (this w) = ModeDoc ->
  ToBoolean (docId (this w)) = false ->
  get rq w = (inl (TypeError "this.getAllDocuments is not a function"), w).
Proof.
  intros Hmode Hdoc. unfold get, bind, read_this. by rewrite Hmode, Hdoc.
Qed.

(** *** What a call does, whatever it is

    The statements below are about [perform], so about all twelve methods
    at once. *)


(** The two ways a call can return. *)
Lemma perform_returns c w w' (r : returned R) :
  perform c w = (inr r, w') ->
  match requester_of c with
  | None => r = This /\ calls w' = calls w /\ globals w' = globals w
  | Some rq =>
      exists f req,
        or_else rq (requester (this w)) = Fn f
        /\ r = Value (f req)
        /\ w' = record_call f req w
  end.
Proof.
  revert w' r.
  destruct c; cbn [requester_of];
    try (unfold_call; repeat branch; intros w' r Hrun; by simplify_eq).
  all: unfold_call;
    repeat first
      [ match goal with
        | |- context [_request ?p ?rq ?m ?b ?w] =>
            let Hrq := fresh "Hrq" in
            destruct (or_else rq (requester (this w))) eqn:Hrq;
            [ rewrite (_request_unresolved p rq m b w) by (by rewrite Hrq)
            | rewrite (_request_resolved p rq m b w _ Hrq) ];
            cbv beta iota zeta
        end
      | branch ];
    intros w' r Hrun; simplify_eq; eauto.
Qed.

(** X2. A call that returns: a selector returns the receiver and calls no
    requester; an action has called, exactly once, the requester that
    [requester || this.requester] picks, returns that call's result as it
    is, and has not touched the client. *)
Theorem returning_call_effect c w w' (r : returned R) :
  perform c w = (inr r, w') ->
  match requester_of c with
  | None => r = This /\ calls w' = calls w /\ globals w' = globals w
  | Some rq =>
      exists f req,
        or_else rq (requester (this w)) = Fn f
        /\ r = Value (f req)
        /\ w' = record_call f req w
  end.
Proof. apply perform_returns. Qed.



(** *** Sessions *)

(** X5. Nothing a caller does through the twelve methods changes the host, the
    default requester, the encoded token or the global scope. *)
Theorem session_keeps_configuration (cs : list (call R)) w :
  host (this (session cs w)) = host (this w)
  /\ requester (this (session cs w)) = requester (this w)
  /\ apiTokenEncoded (this (session cs w)) = apiTokenEncoded (this w)
  /\ globals (session cs w) = globals w.
Proof.
  revert w. induction cs as [|c cs IH]; intros w; [done|].
  simpl. destruct (IH (snd (perform c w))) as (-> & -> & -> & ->).
  destruct (perform_step c w) as (? & ? & ? & ? & _). done.
Qed.

(** X6. The trace only grows, at its end, and by at most one entry per call. *)
Theorem session_trace_grows (cs : list (call R)) w :
  exists more,
    calls (session cs w) = calls w ++ more
    /\ length more <= length cs.
Proof.
  revert w. induction cs as [|c cs IH]; intros w.
  - exists []. by rewrite app_nil_r.
  - simpl. destruct (IH (snd (perform c w))) as (more & -> & Hlen).
    destruct (perform_step c w) as (_ & _ & _ & _ & [-> | (f & p & m & b & ->)]).
    + exists more. split; [done | lia].
    + exists ((f, descriptor (this w) p m b) :: more).
      rewrite <- app_assoc. split; [done | simpl; lia].
Qed.

(** *** Requester resolution *)



(** Whenever [requester || this.requester] is not a function, an action
    whose own checks pass ends in the missing-requester error. *)
Lemma unresolved_fails c w rq :
  requester_of c = Some rq ->
  is_function (or_else rq (requester (this w))) = false ->
  preconditions_met c (this w) = true ->
  perform c w
  = (inl (Error "You must provide a requester function when constructing the class or making the request."),
     w).
Proof.
  intros Hc Hrq Hpre.
  destruct c; simpl in Hc; simplify_eq; revert Hpre; cbn [preconditions_met];
    unfold_call; unfold JS.or;
    destruct (ToBoolean (docSetId (this w))) eqn:?;
    destruct (ToBoolean (storeObjectId (this w))) eqn:?;
    destruct (mode (this w)) eqn:?;
    cbv beta iota zeta delta [negb andb];
    repeat first
      [ rewrite _request_unresolved by done
      | branch ];
    by intros.
Qed.

(** X8. A truthy per-call argument that is not a function is not skipped in
    favour of the default: the call fails even on a client constructed
    with a working requester. *)
Theorem truthy_argument_shadows_default c w v :
  requester_of c = Some (Data v) ->
  ToBoolean v = true ->
  preconditions_met c (this w) = true ->
  perform c w
  = (inl (Error "You must provide a requester function when constructing the class or making the request."),
     w).
Proof.
  intros Hc Hv Hpre. apply (unresolved_fails c w (Data v)); [done| |done].
  unfold or_else. cbn [truthy]. by rewrite Hv.
Qed.

(** X9. A falsy per-call argument, an omitted one included, falls back on the
    requester given at construction, and a function given per call wins
    over it. *)
Theorem requester_fallback_and_override c w w' (r : returned R) rq :
  requester_of c = Some rq ->
  perform c w = (inr r, w') ->
  exists f req,
    r = Value (f req)
    /\ calls w' = calls w ++ [(f, req)]
    /\ (forall g, rq = Fn g -> f = g)
    /\ (forall v, rq = Data v -> ToBoolean v = false /\ requester (this w) = Fn f).
Proof.
  intros Hc Hrun.
  pose proof (perform_returns c w w' r Hrun) as Heff.
  rewrite Hc in Heff. destruct Heff as (f & req & Hf & -> & ->).
  exists f, req. repeat split.
  - intros g ->. unfold or_else in Hf. cbn [truthy] in Hf. congruence.
  - subst rq. unfold or_else in Hf. cbn [truthy] in Hf.
    by destruct (ToBoolean v).
  - subst rq. unfold or_else in Hf. cbn [truthy] in Hf.
    by destruct (ToBoolean v).
Qed.

(** *** Selecting and then acting *)

(** X10. [docSet(sid).doc(did)] with a truthy [sid]: both calls return the
    receiver, and the client ends in ["doc"] mode with set [sid] and
    document [did], its store-object id and its trace as they were. *)
Theorem docSet_then_doc (sid did : value) w :
  ToBoolean sid = true ->
  fst (docSet sid w) = inr This
  /\ fst (doc did (snd (docSet sid w))) = inr This
  /\ mode (this (session [Call_docSet sid; Call_doc did] w)) = ModeDoc
  /\ docSetId (this (session [Call_docSet sid; Call_doc did] w)) = sid
  /\ docId (this (session [Call_docSet sid; Call_doc did] w)) = did
  /\ storeObjectId (this (session [Call_docSet sid; Call_doc did] w))
     = storeObjectId (this w)
  /\ calls (session [Call_docSet sid; Call_doc did] w) = calls w.
Proof.
  intros Hsid. split; [done|].
  assert (Hdoc : doc did (snd (docSet sid w))
    = (inr This,
       {| this := set_docId did
                    (set_mode ModeDoc (set_docSetId sid (set_mode ModeDoc (this w))));
          globals := globals w; calls := calls w |})).
  { unfold doc, bind, read_this. simpl. by rewrite Hsid. }
  cbn [session perform]. by rewrite Hdoc.
Qed.

(** X11. [object(id).get()] with a truthy [id] and a requester at hand: a GET
    of [/store/objects/id], with no body and the [Authorization] header
    alone. [object] itself asks for nothing beforehand. *)
Theorem object_then_get id rq w f :
  ToBoolean id = true ->
  or_else rq (requester (this w)) = Fn f ->
  exists req,
    fst (object id w) = inr This
    /\ get rq (snd (object id w))
       = (inr (f req), record_call f req (snd (object id w)))
    /\ url req
       = ToString (host (this w)) +:+ "/api/v1/store/objects/" +:+ ToString id
    /\ method req = VStr "GET"
    /\ body req = VUndefined
    /\ headers req = {[ "Authorization" := "Basic " +:+ apiTokenEncoded (this w) ]}.
Proof.
  intros Hid Hf.
  exists (descriptor (this (snd (object id w)))
            ("/store/objects/" +:+ ToString id) VUndefined VUndefined).
  split; [done|]. split; [|done].
  unfold get, bind, read_this. simpl. rewrite Hid.
  by rewrite (_request_resolved _ rq _ _ _ f) by done.
Qed.

(** X12. The actions that check an id do not look at the mode: [store()] does
    not change what [getIds] and [getDocuments] go on to do, nor [docSet]
    what [updateStoreObject] does. *)
Theorem id_checked_actions_ignore_mode rq (fields sort : value) state (x : value) w :
  fst (getIds rq (snd (store w))) = fst (getIds rq w)
  /\ fst (getDocuments fields sort rq (snd (store w)))
     = fst (getDocuments fields sort rq w)
  /\ fst (updateStoreObject state rq (snd (docSet x w)))
     = fst (updateStoreObject state rq w).
Proof.
  repeat split.
  - unfold getIds, bind, read_this. simpl.
    destruct (ToBoolean (docSetId (this w))); [|done]. simpl.
    unfold _request, bind, read_this. simpl.
    by destruct (or_else rq (requester (this w))).
  - unfold getDocuments, bind, read_this. simpl.
    destruct (ToBoolean (docSetId (this w))); [|done]. simpl.
    destruct (call_join _ _ _) as [[e|joined] w1] eqn:Hjoin.
    + assert (Hjoin' : forall w2, exists w3,
        call_join (JS.or fields (VArr [VStr "id"; VStr "text"])) "," w2 = (inl e, w3)).
      { intros w2. revert Hjoin. unfold call_join, ret, throw.
        destruct (JS.or fields _); intros; simplify_eq; eauto. }
      destruct (Hjoin' w) as [w3 ->]. done.
    + assert (Hjoin' : forall w2,
        call_join (JS.or fields (VArr [VStr "id"; VStr "text"])) "," w2 = (inr joined, w2)).
      { intros w2. revert Hjoin. unfold call_join, ret, throw.
        destruct (JS.or fields _); intros; by simplify_eq. }
      rewrite Hjoin' in Hjoin. injection Hjoin as <-. rewrite Hjoin'.
      unfold _request, bind, read_this. simpl.
      by destruct (or_else rq (requester (this w))).
  - unfold updateStoreObject, bind, read_this. simpl.
    destruct (ToBoolean (storeObjectId (this w))); [|done]. simpl.
    unfold _request, bind, read_this. simpl.
    by destruct (or_else rq (requester (this w))).
Qed.

(** *** [getDocuments] in general *)

(** X13. With a document set selected and a requester at hand, [getDocuments]
    on an array of fields sends a GET whose query is [stream=true], then
    the fields joined by commas, then the sort if it is truthy. An empty
    array is truthy, so it is sent as an empty list, not replaced by the
    default; a falsy [fields] means [["id", "text"]]; a falsy [sort], [0]
    or the empty string included, is left out. *)
Theorem getDocuments_query_in_general (elts : list value) (fields sort : value) rq w f :
  ToBoolean (docSetId (this w)) = true ->
  or_else rq (requester (this w)) = Fn f ->
  (exists req,
      getDocuments (VArr elts) sort rq w = (inr (f req), record_call f req w)
      /\ url req
         = ToString (host (this w)) +:+ "/api/v1/document-sets/"
             +:+ ToString (docSetId (this w))
             +:+ "/documents?stream=true&fields=" +:+ join "," elts
             +:+ (if ToBoolean sort then "&sort=" +:+ ToString sort else EmptyString)
      /\ method req = VStr "GET"
      /\ body req = VUndefined
      /\ headers req = {[ "Authorization" := "Basic " +:+ apiTokenEncoded (this w) ]})
  /\ (ToBoolean fields = false ->
      getDocuments fields sort rq w
      = getDocuments (VArr [VStr "id"; VStr "text"]) sort rq w)
  /\ getDocuments (VArr []) VUndefined rq w
     = (inr (f (descriptor (this w)
                  ("/document-sets/" +:+ ToString (docSetId (this w))
                     +:+ "/documents?stream=true&fields=")
                  VUndefined VUndefined)),
        record_call f
          (descriptor (this w)
             ("/document-sets/" +:+ ToString (docSetId (this w))
                +:+ "/documents?stream=true&fields=")
             VUndefined VUndefined)
          w).
Proof.
  intros Hset Hf.
  assert (Hrun : forall elts' sort',
    getDocuments (VArr elts') sort' rq w
    = (inr (f (descriptor (this w)
                 ("/document-sets/" +:+ ToString (docSetId (this w))
                    +:+ "/documents?stream=true" +:+ ("&fields=" +:+ join "," elts')
                    +:+ (if ToBoolean sort' then "&sort=" +:+ ToString sort'
                         else EmptyString))
                 VUndefined VUndefined)),
       record_call f
         (descriptor (this w)
            ("/document-sets/" +:+ ToString (docSetId (this w))
               +:+ "/documents?stream=true" +:+ ("&fields=" +:+ join "," elts')
               +:+ (if ToBoolean sort' then "&sort=" +:+ ToString sort'
                    else EmptyString))
            VUndefined VUndefined)
         w)).
  { intros elts' sort'. unfold getDocuments, bind, read_this. rewrite Hset.
    change (JS.or (VArr elts') (VArr [VStr "id"; VStr "text"])) with (VArr elts').
    cbv beta iota zeta delta [negb call_join ret].
    rewrite (_request_resolved _ _ _ _ _ f Hf). by rewrite !app_assoc_str. }
  split; [|split].
  - eexists. split; [apply Hrun|]. by repeat split.
  - intros Hfields. unfold getDocuments, JS.or. by rewrite Hfields.
  - rewrite Hrun. change (ToBoolean VUndefined) with false. cbv iota.
    change (join "," []) with EmptyString.
    change ("&fields=" +:+ EmptyString) with "&fields=".
    by rewrite app_empty_r.
Qed.

(** X14. Truthy [fields] that are not an array have no [join]: the call dies on
    an engine [TypeError] and nothing is sent. *)
Theorem getDocuments_fields_must_be_array (fields sort : value) rq w :
  ToBoolean (docSetId (this w)) = true ->
  ToBoolean fields = true ->
  (forall elts, fields <> VArr elts) ->
  exists message, getDocuments fields sort rq w = (inl (TypeError message), w).
Proof.
  intros Hset Hfields Harr.
  unfold getDocuments, bind, read_this, JS.or. rewrite Hset, Hfields.
  cbv beta iota zeta delta [negb call_join throw].
  destruct fields; try discriminate Hfields; try by eexists.
  by destruct (Harr elts).
Qed.

(** *** The shape of every request *)

(** What a call may add to the trace: a document-set path always goes with
    GET and no body, a store path with GET and no body, with PUT, or, for
    [/store/objects] itself, with POST. *)
Lemma perform_step_shape c w :
  calls (snd (perform c w)) = calls w
  \/ exists f path (m b : value),
      calls (snd (perform c w)) = calls w ++ [(f, descriptor (this w) path m b)]
      /\ ((exists rest, path = "/document-sets/" +:+ rest)
          /\ m = VUndefined /\ b = VUndefined
          \/ (exists rest, path = "/store/" +:+ rest)
             /\ (m = VUndefined /\ b = VUndefined
                 \/ m = VStr "PUT"
                 \/ m = VStr "POST" /\ path = "/store/objects")).
Proof.
  destruct c; run_call; cbn [snd calls record_call]; try (by left);
    right; eexists _, _, _, _; (split; [reflexivity|]);
    rewrite ?app_assoc_str;
    first
      [ left; split; [by eexists | done]
      | right; split; [by eexists | by eauto] ].
Qed.

(** X15. Every request of every session goes to a path under the host's
    [/api/v1], in [/document-sets/] or in [/store/]; its method is GET,
    PUT or POST; document-set paths are only ever read; and a GET carries
    no body and no [Content-Type]. *)
Theorem every_request_has_a_known_shape
    (host_ apiToken : value) (default : callable R) (g : gmap string value)
    (cs : list (call R)) f req :
  (f, req) ∈ calls (session cs (boot host_ apiToken default g)) ->
  (exists path,
      url req = ToString host_ +:+ "/api/v1" +:+ path
      /\ ((exists rest, path = "/document-sets/" +:+ rest) /\ method req = VStr "GET"
          \/ (exists rest, path = "/store/" +:+ rest)
             /\ (method req = VStr "GET"
                 \/ method req = VStr "PUT"
                 \/ method req = VStr "POST" /\ path = "/store/objects")))
  /\ (method req = VStr "GET" ->
      body req = VUndefined /\ headers req !! "Content-Type" = None).
Proof.
  set (Q := fun req : request =>
    (exists path,
        url req = ToString host_ +:+ "/api/v1" +:+ path
        /\ ((exists rest, path = "/document-sets/" +:+ rest) /\ method req = VStr "GET"
            \/ (exists rest, path = "/store/" +:+ rest)
               /\ (method req = VStr "GET"
                   \/ method req = VStr "PUT"
                   \/ method req = VStr "POST" /\ path = "/store/objects")))
    /\ (method req = VStr "GET" ->
        body req = VUndefined /\ headers req !! "Content-Type" = None)).
  assert (Hinv : forall cs' w,
    host (this w) = host_ ->
    Forall (fun entry => Q entry.2) (calls w) ->
    Forall (fun entry => Q entry.2) (calls (session cs' w))).
  { induction cs' as [|c cs' IH]; intros w Hhost Hcalls; [done|].
    simpl. destruct (perform_step c w) as (Hhost' & _).
    apply IH; [congruence|].
    destruct (perform_step_shape c w)
      as [-> | (f' & path & m & b & -> & Hshape)]; [done|].
    apply Forall_app. split; [done|]. apply Forall_singleton. cbn [snd].
    unfold Q, descriptor. cbn [url method body headers]. rewrite Hhost.
    destruct Hshape as [(Hpath & -> & ->) | (Hpath & [[-> ->] | [-> | [-> ->]]])].
    - split; [exists path; split; [done|]; by left | by intros _].
    - split; [exists path; split; [done|]; right; split; [done | by left] | by intros _].
    - split; [exists path; split; [done|]; right; split; [done | right; by left]
             | by intros ?].
    - split; [exists "/store/objects"; split; [done|]; right;
              split; [done | right; by right]
             | by intros ?]. }
  intros Hin.
  pose proof (Hinv cs (boot host_ apiToken default g) eq_refl (Forall_nil_2 _)) as Hall.
  rewrite Forall_forall in Hall. exact (Hall _ Hin).
Qed.

(** *** The fluent client against the stateless one *)

(** [request] of the stateless client, given the positional form of a
    requester, sends what [_request] would. *)
Lemma stateless_request_descriptor a (path : string) (m b : value) f :
  Stateless.request (stateless_of a) (Stateless.Fn (positional f)) (VStr path) m b
  = inr (f (descriptor a path m b)).
Proof.
  unfold Stateless.request, Stateless.buildRequestUrl, positional, descriptor.
  cbn [stateless_of Stateless.host Stateless.apiTokenEncoded ToString].
  by rewrite app_assoc_str.
Qed.

(** X16. On the store side the two clients send the same requests: what the
    fluent client adds is only its mode and id checks. [createObject] has
    no check and agrees everywhere; [getState], [setState] and [getObjects]
    agree in ["store"] mode; [updateStoreObject] agrees, on the selected
    object, whenever its id is truthy. *)
Theorem store_actions_agree_with_stateless state rq w f :
  or_else rq (requester (this w)) = Fn f ->
  fst (createObject state rq w)
  = Stateless.createStoreObject (stateless_of (this w)) (Stateless.Fn (positional f)) state
  /\ (mode (this w) = ModeStore ->
      fst (getState rq w)
      = Stateless.getStoreState (stateless_of (this w)) (Stateless.Fn (positional f))
      /\ fst (setState state rq w)
         = Stateless.setStoreState (stateless_of (this w)) (Stateless.Fn (positional f)) state
      /\ fst (getObjects rq w)
         = Stateless.getStoreObjects (stateless_of (this w)) (Stateless.Fn (positional f)))
  /\ (ToBoolean (storeObjectId (this w)) = true ->
      fst (updateStoreObject state rq w)
      = Stateless.updateStoreObject (stateless_of (this w))
          (Stateless.Fn (positional f)) (storeObjectId (this w)) state).
Proof.
  intros Hf. split; [|split].
  - unfold createObject, Stateless.createStoreObject.
    by rewrite (_request_resolved _ _ _ _ _ f Hf), stateless_request_descriptor.
  - intros Hmode.
    unfold getState, setState, getObjects, bind, read_this,
      Stateless.getStoreState, Stateless.setStoreState, Stateless.getStoreObjects.
    rewrite Hmode, !(_request_resolved _ _ _ _ _ f Hf), !stateless_request_descriptor.
    done.
  - intros Hid.
    unfold updateStoreObject, bind, read_this, Stateless.updateStoreObject.
    rewrite Hid. cbv beta iota zeta delta [negb].
    by rewrite (_request_resolved _ _ _ _ _ f Hf), stateless_request_descriptor.
Qed.

(** X17. On the document side, with a truthy set id: [getIds] sends what
    [getDocumentIds] sends; [getDocuments] with default fields sends what
    [getAllDocuments] sends when the sort is truthy, but with a falsy sort
    the stateless client still appends it ([&sort=undefined] when it is left
    out) where the fluent one sends no sort at all. *)
Theorem document_actions_agree_with_stateless (sort : value) rq w f :
  ToBoolean (docSetId (this w)) = true ->
  or_else rq (requester (this w)) = Fn f ->
  fst (getIds rq w)
  = Stateless.getDocumentIds (stateless_of (this w))
      (Stateless.Fn (positional f)) (docSetId (this w))
  /\ (ToBoolean sort = true ->
      fst (getDocuments VUndefined sort rq w)
      = Stateless.getAllDocuments (stateless_of (this w))
          (Stateless.Fn (positional f)) (docSetId (this w)) sort)
  /\ (ToBoolean sort = false ->
      exists path,
        fst (getDocuments VUndefined sort rq w)
        = inr (f (descriptor (this w) path VUndefined VUndefined))
        /\ Stateless.getAllDocuments (stateless_of (this w))
             (Stateless.Fn (positional f)) (docSetId (this w)) sort
           = inr (f (descriptor (this w)
                       (path +:+ "&sort=" +:+ ToString sort) VUndefined VUndefined))).
Proof.
  intros Hset Hf. split; [|split].
  - unfold getIds, bind, read_this, Stateless.getDocumentIds. rewrite Hset.
    cbv beta iota zeta delta [negb].
    by rewrite (_request_resolved _ _ _ _ _ f Hf), stateless_request_descriptor.
  - intros Hsort.
    unfold getDocuments, bind, read_this, Stateless.getAllDocuments.
    rewrite Hset, Hsort.
    change (JS.or VUndefined (VArr [VStr "id"; VStr "text"]))
      with (VArr [VStr "id"; VStr "text"]).
    cbv beta iota zeta delta [negb call_join ret].
    rewrite (_request_resolved _ _ _ _ _ f Hf), stateless_request_descriptor.
    cbn [fst]. do 3 f_equal. by rewrite !app_assoc_str.
  - intros Hsort. eexists. split.
    + unfold getDocuments, bind, read_this. rewrite Hset, Hsort.
      change (JS.or VUndefined (VArr [VStr "id"; VStr "text"]))
        with (VArr [VStr "id"; VStr "text"]).
      cbv beta iota zeta delta [negb call_join ret].
      by rewrite (_request_resolved _ _ _ _ _ f Hf).
    + unfold Stateless.getAllDocuments. rewrite stateless_request_descriptor.
      by rewrite !app_assoc_str.
Qed.

(** X18. The stateless client checks nothing: given a function it calls it,
    whatever the ids, an undefined document set included, and what it
    passes has the shape the fluent client's requests have; given anything
    else every action ends in the engine's [TypeError], not in an [Error]
    of the library. *)
Theorem stateless_requests_have_a_known_shape (self : Stateless.API)
    (rq : Stateless.callable R) (sc : Stateless.call) :
  match rq with
  | Stateless.Fn g =>
      exists (u : string) (m : value) (h : gmap string string) (b : value),
        Stateless.perform self rq sc = inr (g u m h b)
        /\ (exists path, u = ToString (Stateless.host self) +:+ "/api/v1/" +:+ path)
        /\ h !! "Authorization" = Some ("Basic " +:+ Stateless.apiTokenEncoded self)
        /\ h !! "Content-Type" = (if ToBoolean b then Some "application/json" else None)
        /\ (m = VStr "GET" /\ b = VUndefined \/ m = VStr "PUT" \/ m = VStr "POST")
  | Stateless.Data _ =>
      exists message, Stateless.perform self rq sc = inl (TypeError message)
  end.
Proof.
  destruct rq as [v|g]; [destruct sc; by eexists|].
  destruct sc;
    cbv beta iota delta
      [Stateless.perform Stateless.getDocumentIds Stateless.getDocument
       Stateless.getAllDocuments Stateless.getStoreState Stateless.setStoreState
       Stateless.getStoreObjects Stateless.createStoreObject
       Stateless.updateStoreObject];
    unfold Stateless.request, Stateless.buildRequestUrl;
    cbn [ToString]; rewrite ?app_assoc_str;
    eexists _, _, _, _; (split; [reflexivity|]);
    (split; [by eexists|]);
    (split; [first [ by simplify_map_eq
                   | destruct (ToBoolean state); by simplify_map_eq ]|]);
    (split; [first [ by simplify_map_eq
                   | destruct (ToBoolean state); by simplify_map_eq ]|]);
    eauto.
Qed.

End Properties.

(** ** The encoded token *)

Lemma list_ind3 {A} (P : list A -> Prop) :
  P [] ->
  (forall a, P [a]) ->
  (forall a b, P [a; b]) ->
  (forall a b c l, P l -> P (a :: b :: c :: l)) ->
  forall l, P l.
Proof.
  intros H0 H1 H2 H3. fix IH 1.
  intros [|a [|b [|c l]]];
    [exact H0 | exact (H1 a) | exact (H2 a b) | exact (H3 a b c l (IH l))].
Qed.

(** The sixty-four sextet characters are distinct, and none is the
    padding character. *)
Lemma unsextet_sextet (n : N) :
  (n < 64)%N -> unsextet (sextet n) = n /\ Ascii.eqb (sextet n) "=" = false.
Proof.
  intros Hn. destruct n as [|p]; [by vm_compute|].
  do 6 (destruct p as [p|p|]; try (by vm_compute); try lia).
Qed.

Lemma unbase64_base64_octets (bs : list N) :
  Forall (fun b => (b < 256)%N) bs -> unbase64 (base64_octets bs) = bs.
Proof.
  induction bs as [|a|a b|a b c l IH] using list_ind3; intros Hbs.
  - done.
  - apply Forall_cons in Hbs as [Ha _].
    cbn [base64_octets unbase64].
    destruct (unsextet_sextet (a / 4)) as [-> _];
      [zify; Z.to_euclidean_division_equations; lia|].
    destruct (unsextet_sextet ((a mod 4) * 16)) as [-> _];
      [zify; Z.to_euclidean_division_equations; lia|].
    change (Ascii.eqb "=" "=") with true. cbv iota.
    f_equal. zify; Z.to_euclidean_division_equations; lia.
  - apply Forall_cons in Hbs as [Ha Hbs]. apply Forall_cons in Hbs as [Hb _].
    cbn [base64_octets unbase64].
    destruct (unsextet_sextet (a / 4)) as [-> _];
      [zify; Z.to_euclidean_division_equations; lia|].
    destruct (unsextet_sextet ((a mod 4) * 16 + b / 16)) as [-> _];
      [zify; Z.to_euclidean_division_equations; lia|].
    destruct (unsextet_sextet ((b mod 16) * 4)) as [-> ->];
      [zify; Z.to_euclidean_division_equations; lia|].
    change (Ascii.eqb "=" "=") with true. cbv iota.
    f_equal; [|f_equal]; zify; Z.to_euclidean_division_equations; lia.
  - apply Forall_cons in Hbs as [Ha Hbs]. apply Forall_cons in Hbs as [Hb Hbs].
    apply Forall_cons in Hbs as [Hc Hl].
    cbn [base64_octets unbase64].
    destruct (unsextet_sextet (a / 4)) as [-> _];
      [zify; Z.to_euclidean_division_equations; lia|].
    destruct (unsextet_sextet ((a mod 4) * 16 + b / 16)) as [-> _];
      [zify; Z.to_euclidean_division_equations; lia|].
    destruct (unsextet_sextet ((b mod 16) * 4 + c / 64)) as [-> ->];
      [zify; Z.to_euclidean_division_equations; lia|].
    destruct (unsextet_sextet (c mod 64)) as [-> ->];
      [zify; Z.to_euclidean_division_equations; lia|].
    cbv iota. rewrite (IH Hl).
    f_equal; [|f_equal; [|f_equal]]; zify; Z.to_euclidean_division_equations; lia.
Qed.

Lemma list_ascii_of_string_inj (s t : string) :
  String.list_ascii_of_string s = String.list_ascii_of_string t -> s = t.
Proof.
  intros Heq.
  rewrite <- (String.string_of_list_ascii_of_string s),
          <- (String.string_of_list_ascii_of_string t).
  by rewrite Heq.
Qed.

Lemma list_ascii_of_string_app (s t : string) :
  String.list_ascii_of_string (s +:+ t)
  = String.list_ascii_of_string s ++ String.list_ascii_of_string t.
Proof.
  induction s as [|a s IH]; [done|]. rewrite app_cons. simpl. by rewrite IH.
Qed.

Lemma app_inv_tail_str (s1 s2 t : string) : s1 +:+ t = s2 +:+ t -> s1 = s2.
Proof.
  intros Heq. apply list_ascii_of_string_inj.
  apply (f_equal String.list_ascii_of_string) in Heq.
  rewrite !list_ascii_of_string_app in Heq. by apply app_inv_tail in Heq.
Qed.

(** [toString('base64')] loses nothing: strings with the same encoding are
    the same string. *)
Lemma base64_inj (s t : string) : base64 s = base64 t -> s = t.
Proof.
  intros Heq. apply list_ascii_of_string_inj.
  assert (Hbound : forall u : string,
    Forall (fun b => (b < 256)%N) (map N_of_ascii (String.list_ascii_of_string u))).
  { intros u. apply Forall_forall. intros b Hb.
    apply list_elem_of_fmap in Hb as (c & -> & _). apply N_ascii_bounded. }
  apply (f_equal unbase64) in Heq. unfold base64 in Heq.
  rewrite !unbase64_base64_octets in Heq by apply Hbound.
  apply (f_equal (map ascii_of_N)) in Heq.
  rewrite !map_map in Heq.
  rewrite !(map_ext (fun x => ascii_of_N (N_of_ascii x)) id) in Heq
    by (intros; apply ascii_N_embedding).
  by rewrite !map_id in Heq.
Qed.

(** X19. The encoded credential determines the token as [Buffer] saw it: two
    clients carry the same [apiTokenEncoded], and so send the same
    [Authorization] header, exactly when their tokens convert to the same
    string. *)
Theorem encoded_token_determines_token {R}
    (host1 host2 token1 token2 : value) (rq1 rq2 : callable R) :
  apiTokenEncoded (new_API host1 token1 rq1) = apiTokenEncoded (new_API host2 token2 rq2)
  <-> ToString token1 = ToString token2.
Proof.
  cbn [apiTokenEncoded new_API]. split.
  - intros Heq. apply base64_inj in Heq. by apply app_inv_tail_str in Heq.
  - by intros ->.
Qed.

(** ** Concrete runs *)

(** C1 (the code departs from it). On the test client after
    [docSet(5).doc(9)], [get()] throws a [ReferenceError] for [docId] and
    hands nothing to the requester, where the claim has a GET of
    [/document-sets/5/documents/9]. *)
Theorem get_selected_document_throws :
  let w := session [Call_docSet (VNum 5); Call_doc (VNum 9)] test_client in
  mode (this w) = ModeDoc
  /\ docSetId (this w) = VNum 5
  /\ docId (this w) = VNum 9
  /\ is_function (requester (this w)) = true
  /\ get (Data VUndefined) w = (inl (ReferenceError "docId is not defined"), w)
  /\ calls (snd (get (Data VUndefined) w)) = [].
Proof. vm_compute. by repeat split. Qed.

(** C2 (the code departs from it). On the test client after
    [docSet("my-docs")], [get()] throws a [TypeError] for the missing
    [getAllDocuments] and hands nothing to the requester, where
    [getDocuments()] on the same client sends the all-documents query. *)
Theorem get_all_documents_throws :
  let w := session [Call_docSet (VStr "my-docs")] test_client in
  mode (this w) = ModeDoc
  /\ docSetId (this w) = VStr "my-docs"
  /\ docId (this w) = VUndefined
  /\ get (Data VUndefined) w
     = (inl (TypeError "this.getAllDocuments is not a function"), w)
  /\ calls (snd (get (Data VUndefined) w)) = []
  /\ exists req,
      getDocuments VUndefined VUndefined (Data VUndefined) w
      = (inr (echo req), record_call echo req w)
      /\ url req
         = "https://google.com/api/v1/document-sets/my-docs/documents?stream=true&fields=id,text"
      /\ method req = VStr "GET".
Proof.
  cbv zeta. do 5 (split; [by vm_compute|]).
  eexists. split; [by vm_compute|]. by vm_compute.
Qed.

(** C3, as first stated, fails: [docSet] on a client with document 9
    selected leaves document 9 selected. *)
Lemma docSet_keeps_selected_document :
  let w := session [Call_docSet (VNum 5); Call_doc (VNum 9)] test_client in
  docId (this w) = VNum 9
  /\ docId (this (snd (docSet (VNum 7) w))) = VNum 9
  /\ docId (this (snd (docSet (VNum 7) w))) <> VUndefined.
Proof. vm_compute. by repeat split. Qed.

(** C4, as first stated, fails: [store()] on a client with store object 3
    selected leaves object 3 selected. *)
Lemma store_keeps_selected_object :
  let w := session [Call_object (VNum 3)] test_client in
  storeObjectId (this w) = VNum 3
  /\ storeObjectId (this (snd (store w))) = VNum 3
  /\ storeObjectId (this (snd (store w))) <> VUndefined.
Proof. vm_compute. by repeat split. Qed.

(** C5, as first stated, fails: [setState(0)] and [setState(false)] send
    the body they were given, and no [Content-Type]. *)
Lemma falsy_body_goes_without_content_type :
  Forall
    (fun state =>
       exists req,
         calls (session [Call_store; Call_setState state (Data VUndefined)] test_client)
         = [(echo, req)]
         /\ method req = VStr "PUT"
         /\ body req = state
         /\ body req <> VUndefined
         /\ headers req !! "Content-Type" = None)
    [VNum 0; VBool false].
Proof.
  repeat apply Forall_cons_2; [| |apply Forall_nil_2];
    (eexists; split; [by vm_compute|]; by vm_compute).
Qed.

(** C7, as first stated, fails: with no requester at all, [getState()] on
    a fresh client throws its own store-mode error, not the
    missing-requester one. *)
Lemma mode_check_comes_before_requester_check :
  is_function (requester (this bare_client)) = false
  /\ getState (Data VUndefined) bare_client
     = (inl (Error "You must be operating on the store to set state."), bare_client)
  /\ is_ConfigurationError (Error "You must be operating on the store to set state.")
     = false
  /\ is_PreconditionError (Error "You must be operating on the store to set state.")
     = true.
Proof. by vm_compute. Qed.

(** *** Instances of the general theorems *)

(** C5 at the request of [store().setState({x: 1})] on the test client. *)
Lemma every_request_is_authorized_witness :
  let cs := [Call_store; Call_setState (VObj [("x", VNum 1)]) (Data VUndefined)] in
  let req :=
    descriptor (this (session [Call_store] test_client))
      "/store/state" (VStr "PUT") (VObj [("x", VNum 1)]) in
  (echo, req) ∈ calls (session cs test_client)
  /\ headers req !! "Authorization" = Some "Basic dGVzdFRva2VuOngtYXV0aC10b2tlbg=="
  /\ (headers req !! "Content-Type" = Some "application/json"
      <-> ToBoolean (body req) = true)
  /\ (ToBoolean (body req) = false -> headers req !! "Content-Type" = None).
Proof.
  cbv zeta.
  assert (Hin :
    (echo,
     descriptor (this (session [Call_store] test_client))
       "/store/state" (VStr "PUT") (VObj [("x", VNum 1)]))
    ∈ calls
        (session
           [Call_store; Call_setState (VObj [("x", VNum 1)]) (Data VUndefined)]
           (boot (VStr "https://google.com") (VStr "testToken") (Fn echo) ∅))).
  { vm_compute. apply list_elem_of_here. }
  split; [exact Hin|].
  exact (every_request_is_authorized
           (VStr "https://google.com") (VStr "testToken") (Fn echo) ∅ _ _ _ Hin).
Defined.

(** C6 at [getState()] on the fresh test client. *)
Lemma own_errors_precede_any_effect_witness :
  perform (Call_getState (Data VUndefined)) test_client
  = (inl (Error "You must be operating on the store to set state."), test_client)
  /\ calls test_client = []
  /\ mode (this test_client) = ModeUndefined.
Proof.
  assert (Hrun :
    perform (Call_getState (Data VUndefined)) test_client
    = (inl (Error "You must be operating on the store to set state."), test_client)).
  { vm_compute. reflexivity. }
  split; [exact Hrun|].
  destruct (own_errors_precede_any_effect _ _ _ _ Hrun eq_refl)
    as (_ & Hcalls & Hmode & _).
  split; [exact Hcalls | exact Hmode].
Defined.

(** C7 at [createObject({})] on the client built without a requester. *)
Lemma no_requester_ConfigurationError_witness :
  is_function (requester (this bare_client)) = false
  /\ perform (Call_createObject (VObj []) (Data VUndefined)) bare_client
     = (inl (Error "You must provide a requester function when constructing the class or making the request."),
        bare_client).
Proof.
  split; [reflexivity|].
  apply (no_requester_ConfigurationError
           (Call_createObject (VObj []) (Data VUndefined)) bare_client
           (Data VUndefined) eq_refl eq_refl eq_refl).
  reflexivity.
Defined.

(** C8 on the test client after [docSet("my-docs")]. *)
Lemma getDocuments_query_string_witness :
  let w := session [Call_docSet (VStr "my-docs")] test_client in
  exists req,
    getDocuments VUndefined VUndefined (Data VUndefined) w
    = (inr (echo req), record_call echo req w)
    /\ contains "stream=true" (url req)
    /\ contains "fields=id,text" (url req)
    /\ ~ contains "sort=" (url req).
Proof.
  cbv zeta.
  destruct (getDocuments_query_string
              (session [Call_docSet (VStr "my-docs")] test_client)
              (Data VUndefined) echo eq_refl eq_refl)
    as [(req & path & Hrun & Hurl & Hpath & Hstream & Hfields & _ & Hsort) _].
  exists req. split; [exact Hrun|]. rewrite Hurl.
  split; [by do 2 apply contains_app_r|].
  split; [by do 2 apply contains_app_r|].
  rewrite Hpath. by apply not_contains.
Defined.

(** C9 on the fresh test client, whose mode is still unset. *)
Lemma createObject_needs_no_mode_witness :
  mode (this test_client) = ModeUndefined
  /\ exists req,
      createObject (VObj [("x", VNum 1)]) (Data VUndefined) test_client
      = (inr (echo req), record_call echo req test_client)
      /\ url req = "https://google.com/api/v1/store/objects"
      /\ method req = VStr "POST"
      /\ body req = VObj [("x", VNum 1)].
Proof.
  split; [reflexivity|].
  destruct (createObject_needs_no_mode
              (VObj [("x", VNum 1)]) (Data VUndefined) test_client echo eq_refl)
    as (req & Hrun & Hurl & Hmethod & Hbody & _).
  exists req. repeat split; assumption.
Defined.

(** C10 with the ids [0] and the empty string. *)
Lemma falsy_id_counts_as_none_witness :
  ToBoolean (VNum 0) = false
  /\ ToBoolean (VStr EmptyString) = false
  /\ getIds (Data VUndefined) (snd (docSet (VNum 0) test_client))
     = (inl (Error "Must call docSet() with a set id before using this method."),
        snd (docSet (VNum 0) test_client))
  /\ updateStoreObject (VObj []) (Data VUndefined) (snd (object (VStr EmptyString) test_client))
     = (inl (Error "You must specify a store object id before calling this method."),
        snd (object (VStr EmptyString) test_client)).
Proof.
  split; [reflexivity|]. split; [reflexivity|]. split.
  - exact (proj1 (proj2
      (falsy_id_counts_as_none (VNum 0) (VNum 1) VUndefined VUndefined (VObj [])
         (Data VUndefined) test_client eq_refl))).
  - exact (proj1 (proj2 (proj2 (proj2
      (falsy_id_counts_as_none (VStr EmptyString) (VNum 1) VUndefined VUndefined (VObj [])
         (Data VUndefined) test_client eq_refl))))).
Defined.

(** *** The run time and the test suite, replayed *)

Example base64_test_token :
  base64 ("testToken" +:+ ":x-auth-token") = "dGVzdFRva2VuOngtYXV0aC10b2tlbg==".
Proof. vm_compute. reflexivity. Qed.

Example base64_rfc4648 :
  map base64 ["f"; "fo"; "foo"; "foob"; "fooba"; "foobar"]
  = ["Zg=="; "Zm8="; "Zm9v"; "Zm9vYg=="; "Zm9vYmE="; "Zm9vYmFy"].
Proof. vm_compute. reflexivity. Qed.

Example ToString_array (elts : list value) : ToString (VArr elts) = join "," elts.
Proof. reflexivity. Qed.

Example ToString_examples :
  map ToString [VNum 5; VNum (-12); VStr "my-docs"; VArr [VStr "id"; VNull; VNum 3];
                VArr [VArr [VNum 1; VNum 2]; VStr "x"]; VObj []]
  = ["5"; "-12"; "my-docs"; "id,,3"; "1,2,x"; "[object Object]"].
Proof. vm_compute. reflexivity. Qed.

(** "Basics": [client.store().getState(requester)]. *)
Example test_basics :
  exists req,
    calls (session [Call_store; Call_getState (Fn echo)] test_client) = [(echo, req)]
    /\ headers req !! "Authorization"
       = Some ("Basic " +:+ base64 ("testToken" +:+ ":x-auth-token"))
    /\ starts_with "https://google.com/" (url req) = true
    /\ headers req !! "Content-Type" = None.
Proof. eexists. split; [by vm_compute|]. by vm_compute. Qed.

(** "Document mode": [client.docSet("my-docs").getDocuments(["blargh"],
    undefined, requester)], on the client the first test left in store
    mode. *)
Example test_document_mode :
  exists req,
    calls
      (session
         [Call_docSet (VStr "my-docs");
          Call_getDocuments (VArr [VStr "blargh"]) VUndefined (Fn echo)]
         (session [Call_store] test_client))
    = [(echo, req)]
    /\ url req
       = "https://google.com/api/v1/document-sets/my-docs/documents?stream=true&fields=blargh"
    /\ occursb "stream=true" (url req) = true
    /\ occursb "sort=" (url req) = false.
Proof. eexists. split; [by vm_compute|]. by vm_compute. Qed.

(** [setState({x: 1})] against [getState()] on the store. *)
Example test_put_and_get_state :
  exists put get_,
    calls
      (session
         [Call_store;
          Call_setState (VObj [("x", VNum 1)]) (Data VUndefined);
          Call_getState (Data VUndefined)]
         test_client)
    = [(echo, put); (echo, get_)]
    /\ (url put, method put, body put)
       = ("https://google.com/api/v1/store/state", VStr "PUT", VObj [("x", VNum 1)])
    /\ headers put !! "Content-Type" = Some "application/json"
    /\ (url get_, method get_, body get_)
       = ("https://google.com/api/v1/store/state", VStr "GET", VUndefined)
    /\ headers get_ !! "Content-Type" = None.
Proof. eexists _, _. split; [by vm_compute|]. by vm_compute. Qed.

(** *** Instances of the further theorems *)


(** [createObject({})] on the test client returns what its requester
    returned. *)
Lemma returning_call_effect_witness :
  exists f req,
    or_else (Data VUndefined) (requester (this test_client)) = Fn f
    /\ Value (echo (descriptor (this test_client) "/store/objects" (VStr "POST") (VObj [])))
       = Value (f req)
    /\ record_call echo
         (descriptor (this test_client) "/store/objects" (VStr "POST") (VObj []))
         test_client
       = record_call f req test_client.
Proof.
  exact (returning_call_effect
           (Call_createObject (VObj []) (Data VUndefined)) test_client
           (record_call echo
              (descriptor (this test_client) "/store/objects" (VStr "POST") (VObj []))
              test_client)
           (Value (echo (descriptor (this test_client) "/store/objects"
                           (VStr "POST") (VObj []))))
           eq_refl).
Defined.




(** [createObject({}, "oboe")] fails on the test client, although it was
    constructed with a requester. *)
Lemma truthy_argument_shadows_default_witness :
  is_function (requester (this test_client)) = true
  /\ perform (Call_createObject (VObj []) (Data (VStr "oboe"))) test_client
     = (inl (Error "You must provide a requester function when constructing the class or making the request."),
        test_client).
Proof.
  split; [reflexivity|].
  exact (truthy_argument_shadows_default
           (Call_createObject (VObj []) (Data (VStr "oboe"))) test_client
           (VStr "oboe") eq_refl eq_refl eq_refl).
Defined.

(** [createObject({})] with no per-call requester uses the default. *)
Lemma requester_fallback_and_override_witness :
  exists f req,
    Value (echo (descriptor (this test_client) "/store/objects" (VStr "POST") (VObj [])))
    = Value (f req)
    /\ calls (record_call echo
                (descriptor (this test_client) "/store/objects" (VStr "POST") (VObj []))
                test_client)
       = calls test_client ++ [(f, req)]
    /\ (forall g, @Data request VUndefined = Fn g -> f = g)
    /\ (forall v, @Data request VUndefined = Data v ->
          ToBoolean v = false /\ requester (this test_client) = Fn f).
Proof.
  exact (requester_fallback_and_override
           (Call_createObject (VObj []) (Data VUndefined)) test_client
           (record_call echo
              (descriptor (this test_client) "/store/objects" (VStr "POST") (VObj []))
              test_client)
           (Value (echo (descriptor (this test_client) "/store/objects"
                           (VStr "POST") (VObj []))))
           (Data VUndefined) eq_refl eq_refl).
Defined.

(** [docSet(5).doc(9)] on the test client. *)
Lemma docSet_then_doc_witness :
  let w := session [Call_docSet (VNum 5); Call_doc (VNum 9)] test_client in
  mode (this w) = ModeDoc /\ docSetId (this w) = VNum 5 /\ docId (this w) = VNum 9.
Proof.
  cbv zeta.
  destruct (docSet_then_doc (VNum 5) (VNum 9) test_client eq_refl)
    as (_ & _ & Hmode & Hset & Hdoc & _).
  split; [exact Hmode | split; [exact Hset | exact Hdoc]].
Defined.

(** [object(3).get()] on the test client. *)
Lemma object_then_get_witness :
  exists req,
    get (Data VUndefined) (snd (object (VNum 3) test_client))
    = (inr (echo req), record_call echo req (snd (object (VNum 3) test_client)))
    /\ url req = "https://google.com/api/v1/store/objects/3"
    /\ method req = VStr "GET".
Proof.
  destruct (object_then_get (VNum 3) (Data VUndefined) test_client echo eq_refl eq_refl)
    as (req & _ & Hrun & Hurl & Hmethod & _).
  exists req. split; [exact Hrun | split; [exact Hurl | exact Hmethod]].
Defined.

(** [getDocuments(["title"], 0)] on the test client after
    [docSet("my-docs")]: the sort [0] is dropped. *)
Lemma getDocuments_query_in_general_witness :
  let w := session [Call_docSet (VStr "my-docs")] test_client in
  exists req,
    getDocuments (VArr [VStr "title"]) (VNum 0) (Data VUndefined) w
    = (inr (echo req), record_call echo req w)
    /\ url req
       = "https://google.com/api/v1/document-sets/my-docs/documents?stream=true&fields=title".
Proof.
  cbv zeta.
  destruct (getDocuments_query_in_general
              [VStr "title"] VUndefined (VNum 0) (Data VUndefined)
              (session [Call_docSet (VStr "my-docs")] test_client) echo eq_refl eq_refl)
    as [(req & Hrun & Hurl & _) _].
  exists req. split; [exact Hrun | exact Hurl].
Defined.

(** [getDocuments("id")], a string where an array is expected. *)
Lemma getDocuments_fields_must_be_array_witness :
  let w := session [Call_docSet (VStr "my-docs")] test_client in
  exists message,
    getDocuments (VStr "id") VUndefined (Data VUndefined) w
    = (inl (TypeError message), w).
Proof.
  cbv zeta.
  apply (getDocuments_fields_must_be_array
           (VStr "id") VUndefined (Data VUndefined)
           (session [Call_docSet (VStr "my-docs")] test_client) eq_refl eq_refl).
  intros elts. discriminate.
Defined.

(** The request of [store().setState({x: 1})] on the test client. *)
Lemma every_request_has_a_known_shape_witness :
  let req :=
    descriptor (this (session [Call_store] test_client))
      "/store/state" (VStr "PUT") (VObj [("x", VNum 1)]) in
  (exists path,
      url req = ToString (VStr "https://google.com") +:+ "/api/v1" +:+ path
      /\ ((exists rest, path = "/document-sets/" +:+ rest) /\ method req = VStr "GET"
          \/ (exists rest, path = "/store/" +:+ rest)
             /\ (method req = VStr "GET"
                 \/ method req = VStr "PUT"
                 \/ method req = VStr "POST" /\ path = "/store/objects")))
  /\ (method req = VStr "GET" ->
      body req = VUndefined /\ headers req !! "Content-Type" = None).
Proof.
  cbv zeta.
  assert (Hin :
    (echo,
     descriptor (this (session [Call_store] test_client))
       "/store/state" (VStr "PUT") (VObj [("x", VNum 1)]))
    ∈ calls
        (session
           [Call_store; Call_setState (VObj [("x", VNum 1)]) (Data VUndefined)]
           (boot (VStr "https://google.com") (VStr "testToken") (Fn echo) ∅))).
  { vm_compute. apply list_elem_of_here. }
  exact (every_request_has_a_known_shape
           (VStr "https://google.com") (VStr "testToken") (Fn echo) ∅ _ _ _ Hin).
Defined.

(** The store actions of the two clients on the test client in store
    mode. *)
Lemma store_actions_agree_with_stateless_witness :
  let w := session [Call_store] test_client in
  fst (createObject (VObj [("x", VNum 1)]) (Data VUndefined) w)
  = Stateless.createStoreObject (stateless_of (this w))
      (Stateless.Fn (positional echo)) (VObj [("x", VNum 1)])
  /\ fst (getState (Data VUndefined) w)
     = Stateless.getStoreState (stateless_of (this w)) (Stateless.Fn (positional echo)).
Proof.
  cbv zeta.
  destruct (store_actions_agree_with_stateless
              (VObj [("x", VNum 1)]) (Data VUndefined)
              (session [Call_store] test_client) echo eq_refl)
    as (Hcreate & Hstore & _).
  split; [exact Hcreate | exact (proj1 (Hstore eq_refl))].
Defined.

(** The document actions of the two clients on the test client after
    [docSet("my-docs")], sorted by date. *)
Lemma document_actions_agree_with_stateless_witness :
  let w := session [Call_docSet (VStr "my-docs")] test_client in
  fst (getIds (Data VUndefined) w)
  = Stateless.getDocumentIds (stateless_of (this w))
      (Stateless.Fn (positional echo)) (VStr "my-docs")
  /\ fst (getDocuments VUndefined (VStr "date") (Data VUndefined) w)
     = Stateless.getAllDocuments (stateless_of (this w))
         (Stateless.Fn (positional echo)) (VStr "my-docs") (VStr "date").
Proof.
  cbv zeta.
  destruct (document_actions_agree_with_stateless
              (VStr "date") (Data VUndefined)
              (session [Call_docSet (VStr "my-docs")] test_client) echo
              eq_refl eq_refl)
    as (Hids & Hsorted & _).
  split; [exact Hids | exact (Hsorted eq_refl)].
Defined.
